(** * server.js: the request handlers of the library back end

    A shallow embedding of [src/server.js]: an Express application with four
    routes, a Firestore collection named [events] and a Mailgun client.

    - JavaScript values (what [express.json()] leaves in [req.body], what a
      Firestore document holds, what [res.json] is given) are the inductive
      [Value]; an object is a finite map from property names to values.
    - A handler is a finite tree of calls to the two external services (and to
      the console), each followed by a continuation on the service's answer:
      [Handler].  [run] executes such a tree against a model of the services.
    - The theorems at the end state the behaviour of each route. *)

From Stdlib Require Import PrimFloat Ascii String.
From stdpp Require Import gmap strings list fin_maps.

Set Warnings "-register-all".

Open Scope string_scope.

(** ** JavaScript values *)

(** A number is an IEEE 754 double, as in the language. *)
Inductive Value : Type :=
| VUndefined
| VNull
| VBool (b : bool)
| VNum (n : float)
| VStr (s : string)
| VArr (items : list Value)
| VObj (fields : gmap string Value).

(** [ToBoolean]: what [!v] and [v || w] test.  The falsy values are
    [undefined], [null], [false], [+0], [-0], [NaN] and the empty string. *)
Definition ToBoolean (v : Value) : bool :=
  match v with
  | VUndefined | VNull => false
  | VBool b => b
  | VNum n => negb (PrimFloat.is_zero n || PrimFloat.is_nan n)
  | VStr s => negb (String.eqb s "")
  | VArr _ | VObj _ => true
  end.

(** [a || b] of the language: the left operand when it is truthy. *)
Definition js_or (a b : Value) : Value := if ToBoolean a then a else b.

(** [null] and [undefined] are the two values that cannot be destructured. *)
Definition nullish (v : Value) : bool :=
  match v with
  | VUndefined | VNull => true
  | _ => false
  end.

(** [const { k } = b] for [b] neither [null] nor [undefined], and for a name
    [k] that no prototype defines (the handlers read [email], [message],
    [title], [start], [remindAt], [createdBy] and [notes]; none of them is an
    index, [length] or a method name): the own property of an object,
    [undefined] on an object without it, on an array and on a primitive. *)
Definition prop (k : string) (b : Value) : Value :=
  match b with
  | VObj fields => default VUndefined (fields !! k)
  | _ => VUndefined
  end.

(** [Array.prototype.includes] on an array of strings.  The comparison is
    SameValueZero, so only a string can be found. *)
Definition includes (l : list string) (v : Value) : bool :=
  match v with
  | VStr s => bool_decide (s ∈ l)
  | _ => false
  end.

(** The double quote, which the template literal of the 403 answer prints
    around the address. *)
Definition dquote : string := String "034"%char EmptyString.

Section Engine.

(** [Number::toString] of the JavaScript engine (shortest round-trip
    decimal); the handlers never inspect its result. *)
Variable NumberToString : float -> string.

(** [ToString], as a template literal applies it to [${v}]; [None] when it
    throws a [TypeError].  An array is joined with commas, [null] and
    [undefined] elements printing as nothing.  A parsed object prints as
    [[object Object]] through [Object.prototype.toString], unless it has a
    property [toString] of its own: that property is no function, the
    inherited [valueOf] answers the object itself, and the conversion throws. *)
Fixpoint ToString (v : Value) : option string :=
  match v with
  | VUndefined => Some "undefined"
  | VNull => Some "null"
  | VBool true => Some "true"
  | VBool false => Some "false"
  | VNum n => Some (NumberToString n)
  | VStr s => Some s
  | VArr items =>
      let fix parts (l : list Value) : option (list string) :=
        match l with
        | [] => Some []
        | x :: rest =>
            match (if nullish x then Some "" else ToString x), parts rest with
            | Some p, Some ps => Some (p :: ps)
            | _, _ => None
            end
        end in
      match parts items with
      | Some ps => Some (String.concat "," ps)
      | None => None
      end
  | VObj fields =>
      match fields !! "toString" with
      | Some _ => None
      | None => Some "[object Object]"
      end
  end.

End Engine.

(** ** Errors, documents, external calls *)

(** An [Error] object raised by a client library; the handlers read its
    [message] property only, here [error_message]. *)
Record JsError : Type := { error_message : string }.

(** What a promise settles to, or what a node-style callback [(error, body)]
    receives. *)
Inductive Settled (A : Type) : Type :=
| Resolved (a : A)
| Rejected (error : JsError).
Arguments Resolved {A} a.
Arguments Rejected {A} error.

(** A document of a query snapshot: [doc.id] and [doc.data()]. *)
Record Doc : Type := { id : string; data : gmap string Value }.

(** The calls a handler makes on the outside world.  Every store call is on
    [db.collection("events")]. *)
Inductive Op : Type :=
| CollectionGet
    (* db.collection("events").get() *)
| CollectionWhereGet (field : string) (operand : string)
    (* db.collection("events").where(field, "==", operand).get() *)
| CollectionAdd (newDoc : gmap string Value)
    (* db.collection("events").add(newDoc) *)
| MessagesSend (mail : gmap string Value)
    (* mailgun.messages().send(mail, callback) *)
| ConsoleLog (marker : string) (payload : Value)
| ConsoleError (marker : string) (err : JsError).

(** The answer to each call. *)
Definition Reply (o : Op) : Type :=
  match o with
  | CollectionGet | CollectionWhereGet _ _ => Settled (list Doc)
  | CollectionAdd _ => Settled string
  | MessagesSend _ => Settled Value
  | ConsoleLog _ _ | ConsoleError _ _ => unit
  end.

(** A handler: it is done, or it makes a call and goes on with the answer. *)
Inductive Handler (A : Type) : Type :=
| Done (a : A)
| Call (o : Op) (k : Reply o -> Handler A).
Arguments Done {A} a.
Arguments Call {A} o k.

Fixpoint bind {A B : Type} (h : Handler A) (f : A -> Handler B) : Handler B :=
  match h with
  | Done a => f a
  | Call o k => Call o (fun r => bind (k r) f)
  end.

Definition perform (o : Op) : Handler (Reply o) := Call o Done.

Declare Scope handler_scope.
Delimit Scope handler_scope with handler.
Notation "x <- c ;; k" := (bind c (fun x => k))
  (at level 100, c at next level, right associativity) : handler_scope.
Notation "c ;;; k" := (bind c (fun _ => k))
  (at level 100, right associativity) : handler_scope.
Open Scope handler_scope.

(** [snapshot.forEach(callback)], the callback updating a local variable. *)
Fixpoint forEach {S : Type} (docs : list Doc) (callback : Doc -> S -> Handler S)
    (s : S) : Handler S :=
  match docs with
  | [] => Done s
  | doc :: rest => s' <- callback doc s ;; forEach rest callback s'
  end.

(** [array.push(x)] *)
Definition push {A : Type} (array : list A) (x : A) : list A :=
  (array ++ [x])%list.

(** ** Responses *)

(** [res.status(code).json(body)]; [res.json(body)] alone answers 200.  The
    body is the value handed to [res.json], before it is serialised. *)
Record Response : Type := { status : nat; json : Value }.

(** How a handler ends: it has answered, or a [TypeError] was thrown before
    any answer (by the destructuring of a missing body, or by the conversion
    to a string of an object that cannot be converted). *)
Inductive Outcome : Type :=
| Responded (r : Response)
| ThrewTypeError.

(** [{ success: false, error: msg }] *)
Definition failure_body (msg : string) : Value :=
  VObj {[ "success" := VBool false; "error" := VStr msg ]}.

(** [res.status(code).json(body)] as the end of a handler. *)
Definition respond (code : nat) (body : Value) : Handler Outcome :=
  Done (Responded {| status := code; json := body |}).

(** ** The handlers *)

(** Authorized email addresses (must be verified in Mailgun Sandbox). *)
Definition authorizedEmails : list string :=
  [ "wangjun6666666633@gmail.com";
    "kche0224@student.monash.edu" ].

(** [{ id: doc.id, ...doc.data() }]: the spread copies every stored field
    over the object that so far holds [id] alone, so a stored field named
    [id] takes the place of the document id. *)
Definition with_id (doc : Doc) : Value :=
  VObj (data doc ∪ {[ "id" := VStr (id doc) ]}).

(** The documents that [where(field, "==", operand)] selects for a string
    operand: those whose field holds that very string. *)
Definition field_is (field operand : string) (doc : Doc) : bool :=
  match data doc !! field with
  | Some (VStr s) => String.eqb s operand
  | _ => false
  end.

(** The object literal [newEvent] of POST /events. *)
Definition newEvent (title start remindAt createdBy notes : Value)
    : gmap string Value :=
  {[ "title" := title;
     "start" := start;
     "remindAt" := remindAt;
     "createdBy" := createdBy;
     "notes" := js_or notes (VStr "") ]}.

Section Handlers.

Variable NumberToString : float -> string.

(** [process.env.MAILGUN_DOMAIN] *)
Variable domain : string.

(** POST /send-email, over the list that [authorizedEmails] names. *)
Definition post_send_email_over (authorized : list string) (body : Value)
    : Handler Outcome :=
  if nullish body then Done ThrewTypeError else
  let email := prop "email" body in
  let message := prop "message" body in
  (* Validate fields *)
  if negb (ToBoolean email) || negb (ToBoolean message) then
    respond 400 (failure_body "Missing fields")
  (* Check if email is authorized *)
  else if negb (includes authorized email) then
    match ToString NumberToString email with
    | Some shown =>
        respond 403
          (failure_body
             ("The email " +:+ dquote +:+ shown +:+ dquote
                +:+ " is not authorized in the Mailgun Sandbox."))
    | None => Done ThrewTypeError
    end
  else
    (* the object [data] of the source *)
    let mail : gmap string Value :=
      {[ "from" := VStr ("Mailgun Sandbox <postmaster@" +:+ domain +:+ ">");
         "to" := email;
         "subject" := VStr "Library Contact Message";
         "text" := message ]} in
    (* Send email through Mailgun *)
    sent <- perform (MessagesSend mail) ;;
    match sent with
    | Rejected error =>
        perform (ConsoleError "❌ Mailgun Error:" error) ;;;
        respond 500 (failure_body (error_message error))
    | Resolved body =>
        perform (ConsoleLog "✅ Email sent:" body) ;;;
        respond 200 (VObj {[ "success" := VBool true; "body" := body ]})
    end.

Definition post_send_email : Value -> Handler Outcome :=
  post_send_email_over authorizedEmails.

(** GET /api/events *)
Definition get_api_events : Handler Outcome :=
  snapshot <- perform CollectionGet ;;
  match snapshot with
  | Resolved docs =>
      events <-
        forEach docs
          (fun doc events =>
             perform (ConsoleLog "📄 Firestore document:" (VObj (data doc))) ;;;
             Done (push events (with_id doc)))
          [] ;;
      respond 200 (VObj {[ "success" := VBool true; "events" := VArr events ]})
  | Rejected err =>
      perform (ConsoleError "❌ Firestore Error:" err) ;;;
      respond 500 (failure_body (error_message err))
  end.

(** GET /api/events/:email *)
Definition get_api_events_email (email : string) : Handler Outcome :=
  snapshot <- perform (CollectionWhereGet "createdBy" email) ;;
  match snapshot with
  | Resolved docs =>
      events <-
        forEach docs (fun doc events => Done (push events (with_id doc))) [] ;;
      respond 200 (VObj {[ "success" := VBool true; "events" := VArr events ]})
  | Rejected err =>
      perform (ConsoleError "❌ Firestore Error:" err) ;;;
      respond 500 (failure_body (error_message err))
  end.

(** POST /events *)
Definition post_events (body : Value) : Handler Outcome :=
  if nullish body then Done ThrewTypeError else
  let title := prop "title" body in
  let start := prop "start" body in
  let remindAt := prop "remindAt" body in
  let createdBy := prop "createdBy" body in
  let notes := prop "notes" body in
  (* Validate fields *)
  if negb (ToBoolean title) || negb (ToBoolean start)
     || negb (ToBoolean remindAt) || negb (ToBoolean createdBy) then
    respond 400 (failure_body "Missing required fields")
  else
    let event := newEvent title start remindAt createdBy notes in
    docRef <- perform (CollectionAdd event) ;;
    match docRef with
    | Resolved docRef_id =>
        respond 200
          (VObj {[ "success" := VBool true;
                   "id" := VStr docRef_id;
                   "event" := VObj event ]})
    | Rejected error =>
        perform (ConsoleError "❌ Firestore Error:" error) ;;;
        respond 500 (failure_body (error_message error))
    end.

(** The routes of the application. *)
Inductive Request : Type :=
| POST_send_email (body : Value)
| GET_api_events
| GET_api_events_email (email : string)
| POST_events (body : Value).

Definition app (req : Request) : Handler Outcome :=
  match req with
  | POST_send_email body => post_send_email body
  | GET_api_events => get_api_events
  | GET_api_events_email email => get_api_events_email email
  | POST_events body => post_events body
  end.

End Handlers.

(** ** The external services *)

(** The document store and the email provider, as far as a handler can tell
    them apart: whether a store call is rejected (and with which error) in a
    given state of the collection, the id the store gives a new document, and
    what the provider passes to the callback of [send]. *)
Record Services : Type := {
  store_fault : Op -> list Doc -> option JsError;
  assign_id : list Doc -> gmap string Value -> string;
  provider : gmap string Value -> Settled Value
}.

(** The error with which a call fails, if it does. *)
Definition failure (sv : Services) (events : list Doc) (o : Op) : option JsError :=
  match o with
  | CollectionGet | CollectionWhereGet _ _ | CollectionAdd _ =>
      store_fault sv o events
  | MessagesSend mail =>
      match provider sv mail with
      | Rejected e => Some e
      | Resolved _ => None
      end
  | ConsoleLog _ _ | ConsoleError _ _ => None
  end.

(** Modelled from the spec: the Firestore and Mailgun clients, which are
    libraries outside [src/] (the document store supports add-document,
    get-all-documents and an equality-filtered query by field, and returns
    documents with the ids it assigns; the provider accepts a mail and returns
    a response body or an error).  One call: its answer and the collection
    after it.  The list [events] is the collection in the order in which the
    store lists it, whichever that is: [get] answers every document and
    [where(...).get] those its filter selects, in that order.  [add] stores
    the new document under the id the store assigns; that this list puts it
    last is a choice of the list, not of the store, and the place of a new
    document among the others is nothing a handler decides.  A rejected call
    changes nothing; the console answers nothing. *)
Definition answer (sv : Services) (events : list Doc) (o : Op)
    : Reply o * list Doc :=
  match o as o' return Reply o' * list Doc with
  | CollectionGet =>
      match store_fault sv CollectionGet events with
      | Some e => (Rejected e, events)
      | None => (Resolved events, events)
      end
  | CollectionWhereGet field operand =>
      match store_fault sv (CollectionWhereGet field operand) events with
      | Some e => (Rejected e, events)
      | None => (Resolved (List.filter (field_is field operand) events), events)
      end
  | CollectionAdd newDoc =>
      match store_fault sv (CollectionAdd newDoc) events with
      | Some e => (Rejected e, events)
      | None =>
          let i := assign_id sv events newDoc in
          (Resolved i, push events {| id := i; data := newDoc |})
      end
  | MessagesSend mail => (provider sv mail, events)
  | ConsoleLog _ _ | ConsoleError _ _ => (tt, events)
  end.

(** What running a handler leaves: the collection, the calls made in order,
    and the handler's result. *)
Record Run (A : Type) : Type := {
  collection : list Doc;
  calls : list Op;
  result : A
}.
Arguments collection {A} _.
Arguments calls {A} _.
Arguments result {A} _.

Fixpoint run {A : Type} (sv : Services) (h : Handler A) (events : list Doc)
    : Run A :=
  match h with
  | Done a => {| collection := events; calls := []; result := a |}
  | Call o k =>
      let '(r, events') := answer sv events o in
      let rest := run sv (k r) events' in
      {| collection := collection rest;
         calls := o :: calls rest;
         result := result rest |}
  end.

(** The calls that leave the process: everything but the console. *)
Definition external (o : Op) : bool :=
  match o with
  | ConsoleLog _ _ | ConsoleError _ _ => false
  | _ => true
  end.

(** The messages handed to the provider, in order. *)
Definition dispatched (tr : list Op) : list (gmap string Value) :=
  omap (fun o => match o with MessagesSend mail => Some mail | _ => None end) tr.

(** The documents handed to [add], in order. *)
Definition added (tr : list Op) : list (gmap string Value) :=
  omap (fun o => match o with CollectionAdd d => Some d | _ => None end) tr.

(** ** Describing the runs *)

(** The document POST /events builds from a body. *)
Definition event_of (body : Value) : gmap string Value :=
  newEvent (prop "title" body) (prop "start" body) (prop "remindAt" body)
    (prop "createdBy" body) (prop "notes" body).

(** The four required fields of POST /events are all truthy. *)
Definition event_fields_given (body : Value) : bool :=
  ToBoolean (prop "title" body) && ToBoolean (prop "start" body)
  && ToBoolean (prop "remindAt" body) && ToBoolean (prop "createdBy" body).

(** The answer of POST /events to a stored document. *)
Definition created (docRef_id : string) (event : gmap string Value) : Response :=
  {| status := 200;
     json := VObj {[ "success" := VBool true;
                     "id" := VStr docRef_id;
                     "event" := VObj event ]} |}.

(** The answer of every route to a failed external call. *)
Definition server_error (e : JsError) : Response :=
  {| status := 500; json := failure_body (error_message e) |}.

Definition the_five_fields : gset string :=
  {[ "title"; "start"; "remindAt"; "createdBy"; "notes" ]}.

(** The mail POST /send-email hands to the provider. *)
Definition mail_of (domain : string) (body : Value) : gmap string Value :=
  {[ "from" := VStr ("Mailgun Sandbox <postmaster@" +:+ domain +:+ ">");
     "to" := prop "email" body;
     "subject" := VStr "Library Contact Message";
     "text" := prop "message" body ]}.

(** The text of the 403 answer, around the address as printed. *)
Definition not_authorized (shown : string) : string :=
  "The email " +:+ dquote +:+ shown +:+ dquote
    +:+ " is not authorized in the Mailgun Sandbox.".

(** The three ways POST /events can run. *)
Inductive post_events_run (sv : Services) (body : Value) (events : list Doc)
    : Run Outcome -> Prop :=
| events_rejected_400 :
    nullish body = false -> event_fields_given body = false ->
    post_events_run sv body events
      {| collection := events; calls := [];
         result := Responded {| status := 400;
                                json := failure_body "Missing required fields" |} |}
| events_stored_200 :
    event_fields_given body = true ->
    store_fault sv (CollectionAdd (event_of body)) events = None ->
    post_events_run sv body events
      {| collection :=
           push events {| id := assign_id sv events (event_of body);
                          data := event_of body |};
         calls := [CollectionAdd (event_of body)];
         result :=
           Responded (created (assign_id sv events (event_of body)) (event_of body)) |}
| events_failed_500 (e : JsError) :
    event_fields_given body = true ->
    store_fault sv (CollectionAdd (event_of body)) events = Some e ->
    post_events_run sv body events
      {| collection := events;
         calls := [CollectionAdd (event_of body);
                   ConsoleError "❌ Firestore Error:" e];
         result := Responded (server_error e) |}
| events_threw :
    nullish body = true ->
    post_events_run sv body events
      {| collection := events; calls := []; result := ThrewTypeError |}.


(** ** The start of the server, and requests in sequence *)

(** [snapshot.size]: a count of documents as a number of the language (the
    sum is exact below 2^53). *)
Definition Number_of_nat (n : nat) : float :=
  Nat.iter n (fun x => (x + 1)%float) 0%float.

(** Test Firestore connection: the function called once when the module is
    loaded.  Its promise is not awaited, and its [catch] keeps any error. *)
Definition connection_test : Handler unit :=
  snapshot <- perform CollectionGet ;;
  match snapshot with
  | Resolved docs =>
      perform (ConsoleLog "✅ Firestore connected, events count:"
                 (VNum (Number_of_nat (length docs))))
  | Rejected err =>
      perform (ConsoleError "❌ Firestore connection failed:" err)
  end.

(** The marker under which a route logs the error of a failed call. *)
Definition error_marker (req : Request) : string :=
  match req with
  | POST_send_email _ => "❌ Mailgun Error:"
  | _ => "❌ Firestore Error:"
  end.

(** The application answering requests one after the other, each on the
    collection the one before left (a handler calls the store at most once,
    so the store sees the calls of the requests in some such order). *)
Fixpoint serve (NumberToString : float -> string) (domain : string)
    (sv : Services) (reqs : list Request) (events : list Doc)
    : list Doc * list Outcome :=
  match reqs with
  | [] => (events, [])
  | req :: rest =>
      let r := run sv (app NumberToString domain req) events in
      let '(final, outcomes) :=
        serve NumberToString domain sv rest (collection r) in
      (final, result r :: outcomes)
  end.

(** A document as POST /events builds it: the five fields and no other, the
    four required ones truthy, [notes] truthy or the empty string. *)
Definition truthy_at (k : string) (d : gmap string Value) : bool :=
  match d !! k with
  | Some v => ToBoolean v
  | None => false
  end.

Definition event_shaped (d : gmap string Value) : bool :=
  bool_decide (dom d = the_five_fields)
  && truthy_at "title" d && truthy_at "start" d
  && truthy_at "remindAt" d && truthy_at "createdBy" d
  && match d !! "notes" with
     | Some (VStr s) => true
     | Some v => ToBoolean v
     | None => false
     end.

(** What POST /send-email hands to the provider, if anything. *)
Definition mail_sent (domain : string) (req : Request) : list (gmap string Value) :=
  match req with
  | POST_send_email body =>
      if ToBoolean (prop "email" body) && ToBoolean (prop "message" body)
         && includes authorizedEmails (prop "email" body)
      then [mail_of domain body]
      else []
  | _ => []
  end.



(** ** Requests and services to try the handlers on *)

Module Try.

(** A stand-in for the number printer of the engine: no request below holds
    a number. *)
Definition nts (_ : float) : string := "0".

(** A value of [MAILGUN_DOMAIN]. *)
Definition dom0 : string := "sandbox.mailgun.org".

(** Services in which nothing fails. *)
Definition healthy : Services :=
  {| store_fault := fun _ _ => None;
     assign_id := fun _ _ => "doc-1";
     provider := fun _ => Resolved (VObj {[ "message" := VStr "Queued. Thank you." ]}) |}.

(** Services in which every call fails. *)
Definition down : Services :=
  {| store_fault := fun _ _ => Some {| error_message := "UNAVAILABLE" |};
     assign_id := fun _ _ => "doc-1";
     provider := fun _ => Rejected {| error_message := "Forbidden" |} |}.

Definition talk : Value :=
  VObj {[ "title" := VStr "Talk";
          "start" := VStr "2024-01-01T10:00";
          "remindAt" := VStr "2024-01-01T09:00";
          "createdBy" := VStr "a@x.com" ]}.

Definition not_listed : Value :=
  VObj {[ "email" := VStr "not-listed@x.com"; "message" := VStr "hi" ]}.

Definition not_listed_empty : Value :=
  VObj {[ "email" := VStr "not-listed@x.com"; "message" := VStr "" ]}.

Definition listed : Value :=
  VObj {[ "email" := VStr "kche0224@student.monash.edu"; "message" := VStr "hello" ]}.


Definition talk_event : gmap string Value :=
  {[ "title" := VStr "Talk";
     "start" := VStr "2024-01-01T10:00";
     "remindAt" := VStr "2024-01-01T09:00";
     "createdBy" := VStr "a@x.com";
     "notes" := VStr "" ]}.

(** The body of [talk] with a property the handler does not know. *)
Definition talk_in_colour : Value :=
  VObj {[ "title" := VStr "Talk";
          "start" := VStr "2024-01-01T10:00";
          "remindAt" := VStr "2024-01-01T09:00";
          "createdBy" := VStr "a@x.com";
          "colour" := VStr "red" ]}.

(** A body in which the first required field of either POST route is the
    empty string. *)
Definition blank : Value :=
  VObj {[ "email" := VStr "";
          "message" := VStr "hi";
          "title" := VStr "";
          "start" := VStr "2024-01-01T10:00";
          "remindAt" := VStr "2024-01-01T09:00";
          "createdBy" := VStr "a@x.com" ]}.

Definition unprintable : Value :=
  VObj {[ "email" := VObj {[ "toString" := VStr "a@x.com" ]};
          "message" := VStr "hi" ]}.


(** Three documents; the second differs from the first in the case of one
    letter of [createdBy]. *)
Definition three : list Doc :=
  [ {| id := "e1";
       data := {[ "title" := VStr "Talk"; "createdBy" := VStr "a@x.com" ]} |};
    {| id := "e2";
       data := {[ "title" := VStr "Walk"; "createdBy" := VStr "A@x.com" ]} |};
    {| id := "e3";
       data := {[ "title" := VStr "Read"; "createdBy" := VStr "b@x.com" ]} |} ].

(** The body of [talk] with a number as [createdBy]. *)
Definition talk_by_number : Value :=
  VObj {[ "title" := VStr "Talk";
          "start" := VStr "2024-01-01T10:00";
          "remindAt" := VStr "2024-01-01T09:00";
          "createdBy" := VNum 5%float ]}.

(** Services in which nothing fails and every new document gets an id of
    its own, longer by one sign for every document the collection holds. *)
Definition numbering : Services :=
  {| store_fault := fun _ _ => None;
     assign_id := fun events _ => "doc" +:+ String.concat "" (map (fun _ => "+") events);
     provider := fun _ => Resolved VNull |}.

(** The mail of [listed]. *)
Definition listed_mail : gmap string Value :=
  {[ "from" := VStr "Mailgun Sandbox <postmaster@sandbox.mailgun.org>";
     "to" := VStr "kche0224@student.monash.edu";
     "subject" := VStr "Library Contact Message";
     "text" := VStr "hello" ]}.

(** A collection in which the first document stores a field named [id]. *)
Definition shadowed : list Doc :=
  [ {| id := "e1"; data := {[ "id" := VStr "mine"; "title" := VStr "Talk" ]} |};
    {| id := "e2"; data := {[ "title" := VStr "Walk" ]} |} ].

End Try.

(** ** Running a handler *)

(** Two requests, worked through. *)
Example post_events_talk_scenario :
  run Try.healthy (post_events Try.talk) [] =
  {| collection :=
       [ {| id := "doc-1";
            data := {[ "title" := VStr "Talk";
                       "start" := VStr "2024-01-01T10:00";
                       "remindAt" := VStr "2024-01-01T09:00";
                       "createdBy" := VStr "a@x.com";
                       "notes" := VStr "" ]} |} ];
     calls :=
       [ CollectionAdd {[ "title" := VStr "Talk";
                          "start" := VStr "2024-01-01T10:00";
                          "remindAt" := VStr "2024-01-01T09:00";
                          "createdBy" := VStr "a@x.com";
                          "notes" := VStr "" ]} ];
     result :=
       Responded
         {| status := 200;
            json :=
              VObj {[ "success" := VBool true;
                      "id" := VStr "doc-1";
                      "event" :=
                        VObj {[ "title" := VStr "Talk";
                                "start" := VStr "2024-01-01T10:00";
                                "remindAt" := VStr "2024-01-01T09:00";
                                "createdBy" := VStr "a@x.com";
                                "notes" := VStr "" ]} ]} |} |}.
Proof. vm_compute. reflexivity. Qed.

Example send_email_not_listed_scenario :
  post_send_email Try.nts Try.dom0 Try.not_listed =
  respond 403
    (failure_body
       ("The email " +:+ dquote +:+ "not-listed@x.com" +:+ dquote
          +:+ " is not authorized in the Mailgun Sandbox.")).
Proof. vm_compute. reflexivity. Qed.

(** An address that is an object with a property [toString] of its own
    cannot be printed: the template literal of the 403 answer throws. *)
Example send_email_unprintable_address :
  post_send_email Try.nts Try.dom0 Try.unprintable = Done ThrewTypeError.
Proof. vm_compute. reflexivity. Qed.

(** An array is a body without any of the properties. *)
Example post_events_array_body :
  post_events (VArr [VStr "Talk"]) =
  respond 400 (failure_body "Missing required fields").
Proof. vm_compute. reflexivity. Qed.

(** Zero and the empty string are falsy, an empty array is not. *)
Example ToBoolean_edges :
  ToBoolean (VNum 0%float) = false
  /\ ToBoolean (VNum (-0)%float) = false
  /\ ToBoolean (VNum nan) = false
  /\ ToBoolean (VNum 0.5%float) = true
  /\ ToBoolean (VStr "") = false
  /\ ToBoolean (VArr []) = true.
Proof. repeat split; vm_compute; reflexivity. Qed.

Section Running.

Variable sv : Services.

Lemma run_done {A : Type} (a : A) (events : list Doc) :
  run sv (Done a) events = {| collection := events; calls := []; result := a |}.
Proof. reflexivity. Qed.

Lemma run_call {A : Type} (o : Op) (k : Reply o -> Handler A) (events : list Doc) :
  run sv (Call o k) events =
  {| collection := collection (run sv (k (answer sv events o).1) (answer sv events o).2);
     calls := o :: calls (run sv (k (answer sv events o).1) (answer sv events o).2);
     result := result (run sv (k (answer sv events o).1) (answer sv events o).2) |}.
Proof. cbn [run]. destruct (answer sv events o) as [r events']. reflexivity. Qed.

Lemma run_perform (o : Op) (events : list Doc) :
  run sv (perform o) events =
  {| collection := (answer sv events o).2;
     calls := [o];
     result := (answer sv events o).1 |}.
Proof. unfold perform. rewrite run_call. reflexivity. Qed.

(** Running [h] and then [f] is running [h], then [f] on what [h] left. *)
Lemma run_bind {A B : Type} (h : Handler A) (f : A -> Handler B) (events : list Doc) :
  run sv (bind h f) events =
  {| collection := collection (run sv (f (result (run sv h events)))
                                 (collection (run sv h events)));
     calls := (calls (run sv h events) ++
               calls (run sv (f (result (run sv h events)))
                        (collection (run sv h events))))%list;
     result := result (run sv (f (result (run sv h events)))
                         (collection (run sv h events))) |}.
Proof.
  revert events. induction h as [a | o k IH]; intros events.
  - cbn [bind]. rewrite run_done. cbn [collection calls result app].
    destruct (run sv (f a) events); reflexivity.
  - cbn [bind]. rewrite !run_call. cbn [collection calls result].
    rewrite IH. cbn [collection calls result]. reflexivity.
Qed.

(** The loop of GET /api/events/:email pushes one object per document and
    calls nothing. *)
Lemma run_forEach_push (g : Doc -> Value) (docs : list Doc) (acc : list Value)
    (events : list Doc) :
  run sv (forEach docs (fun doc evs => Done (push evs (g doc))) acc) events =
  {| collection := events; calls := []; result := (acc ++ map g docs)%list |}.
Proof.
  revert acc. induction docs as [| doc rest IH]; intros acc.
  - cbn [forEach map]. rewrite run_done, app_nil_r. reflexivity.
  - cbn [forEach bind map]. rewrite IH. unfold push.
    rewrite <- app_assoc. reflexivity.
Qed.

(** The loop of GET /api/events does the same and logs every document. *)
Lemma run_forEach_log_push (marker : string) (g : Doc -> Value)
    (docs : list Doc) (acc : list Value) (events : list Doc) :
  run sv
    (forEach docs
       (fun doc evs =>
          perform (ConsoleLog marker (VObj (data doc))) ;;; Done (push evs (g doc)))
       acc) events =
  {| collection := events;
     calls := map (fun doc => ConsoleLog marker (VObj (data doc))) docs;
     result := (acc ++ map g docs)%list |}.
Proof.
  revert acc. induction docs as [| doc rest IH]; intros acc.
  - cbn [forEach map]. rewrite run_done, app_nil_r. reflexivity.
  - cbn [forEach map]. rewrite run_bind.
    cbn [perform bind run answer collection calls result app].
    rewrite IH. unfold push. rewrite <- app_assoc. reflexivity.
Qed.

End Running.

(** ** The handlers case by case *)

Lemma truthy_prop_object (k : string) (body : Value) :
  ToBoolean (prop k body) = true -> nullish body = false.
Proof. destruct body; cbn; congruence. Qed.

Lemma fields_given_not_nullish (body : Value) :
  event_fields_given body = true -> nullish body = false.
Proof.
  unfold event_fields_given. intros Hv.
  destruct (ToBoolean (prop "title" body)) eqn:H1; [| discriminate].
  by apply truthy_prop_object in H1.
Qed.

Lemma post_events_nullish (body : Value) :
  nullish body = true -> post_events body = Done ThrewTypeError.
Proof. intros H. unfold post_events. rewrite H. reflexivity. Qed.

Lemma post_events_invalid (body : Value) :
  nullish body = false -> event_fields_given body = false ->
  post_events body = respond 400 (failure_body "Missing required fields").
Proof.
  intros Hb Hv. unfold post_events, event_fields_given in *. rewrite Hb.
  destruct (ToBoolean (prop "title" body)), (ToBoolean (prop "start" body)),
    (ToBoolean (prop "remindAt" body)), (ToBoolean (prop "createdBy" body));
    cbn in Hv; try discriminate; reflexivity.
Qed.

Lemma post_events_valid (body : Value) :
  event_fields_given body = true ->
  post_events body =
  Call (CollectionAdd (event_of body))
    (fun docRef =>
       match docRef with
       | Resolved docRef_id => Done (Responded (created docRef_id (event_of body)))
       | Rejected error =>
           Call (ConsoleError "❌ Firestore Error:" error)
             (fun _ => Done (Responded (server_error error)))
       end).
Proof.
  intros Hv. unfold event_fields_given in Hv.
  apply andb_prop in Hv as [Hv H4]. apply andb_prop in Hv as [Hv H3].
  apply andb_prop in Hv as [H1 H2].
  unfold post_events. rewrite (truthy_prop_object _ _ H1), H1, H2, H3, H4.
  cbn [negb orb perform bind]. f_equal.
Qed.

Section Cases.

Variable NumberToString : float -> string.
Variable domain : string.
Variable sv : Services.

Lemma post_events_runs (body : Value) (events : list Doc) :
  post_events_run sv body events (run sv (post_events body) events).
Proof.
  destruct (nullish body) eqn:Hb.
  { rewrite post_events_nullish by done. by apply events_threw. }
  destruct (event_fields_given body) eqn:Hv.
  2: { rewrite post_events_invalid by done. by apply events_rejected_400. }
  rewrite post_events_valid by done.
  rewrite run_call. cbn [answer].
  destruct (store_fault sv (CollectionAdd (event_of body)) events) as [e |] eqn:Hf;
    cbn [fst snd].
  - rewrite run_call. cbn [answer fst snd run collection calls result].
    by apply events_failed_500.
  - cbn [run collection calls result]. by apply events_stored_200.
Qed.

Lemma post_send_email_nullish (authorized : list string) (body : Value) :
  nullish body = true ->
  post_send_email_over NumberToString domain authorized body = Done ThrewTypeError.
Proof. intros H. unfold post_send_email_over. rewrite H. reflexivity. Qed.

Lemma post_send_email_invalid (authorized : list string) (body : Value) :
  nullish body = false ->
  ToBoolean (prop "email" body) && ToBoolean (prop "message" body) = false ->
  post_send_email_over NumberToString domain authorized body =
  respond 400 (failure_body "Missing fields").
Proof.
  intros Hb Hv. unfold post_send_email_over. rewrite Hb.
  destruct (ToBoolean (prop "email" body)), (ToBoolean (prop "message" body));
    cbn in Hv; try discriminate; reflexivity.
Qed.

Lemma post_send_email_refused (authorized : list string) (body : Value) :
  ToBoolean (prop "email" body) = true ->
  ToBoolean (prop "message" body) = true ->
  includes authorized (prop "email" body) = false ->
  post_send_email_over NumberToString domain authorized body =
  match ToString NumberToString (prop "email" body) with
  | Some shown => respond 403 (failure_body (not_authorized shown))
  | None => Done ThrewTypeError
  end.
Proof.
  intros He Hm Hi. unfold post_send_email_over.
  rewrite (truthy_prop_object _ _ He), He, Hm, Hi. reflexivity.
Qed.

Lemma post_send_email_accepted (authorized : list string) (body : Value) :
  ToBoolean (prop "email" body) = true ->
  ToBoolean (prop "message" body) = true ->
  includes authorized (prop "email" body) = true ->
  post_send_email_over NumberToString domain authorized body =
  Call (MessagesSend (mail_of domain body))
    (fun sent =>
       match sent with
       | Rejected error =>
           Call (ConsoleError "❌ Mailgun Error:" error)
             (fun _ => Done (Responded (server_error error)))
       | Resolved reply =>
           Call (ConsoleLog "✅ Email sent:" reply)
             (fun _ =>
                respond 200 (VObj {[ "success" := VBool true; "body" := reply ]}))
       end).
Proof.
  intros He Hm Hi. unfold post_send_email_over.
  rewrite (truthy_prop_object _ _ He), He, Hm, Hi.
  cbn [negb orb perform bind]. f_equal.
Qed.

End Cases.

(** ** POST /send-email *)

Section SendEmail.

Variable NumberToString : float -> string.
Variable domain : string.

(** C1, as amended.  A request whose [email] and [message] both pass the
    presence check, and whose [email] is not on the allow-list and can be
    printed (as every string can), is answered 403 with [success: false],
    whatever the message is, and without any call to a service.  The error
    text quotes the rejected value as the template literal prints it, which
    for a string is the address itself. *)
Theorem unlisted_email_is_403 (body : Value) (shown : string) :
  ToBoolean (prop "email" body) = true ->
  ToBoolean (prop "message" body) = true ->
  includes authorizedEmails (prop "email" body) = false ->
  ToString NumberToString (prop "email" body) = Some shown ->
  post_send_email NumberToString domain body =
    respond 403
      (VObj {[ "success" := VBool false;
               "error" :=
                 VStr ("The email " +:+ dquote +:+ shown +:+ dquote
                         +:+ " is not authorized in the Mailgun Sandbox.") ]})
  /\ (forall addr : string, prop "email" body = VStr addr -> shown = addr)
  /\ (forall (sv : Services) (events : list Doc),
        collection (run sv (post_send_email NumberToString domain body) events) = events
        /\ calls (run sv (post_send_email NumberToString domain body) events) = []).
Proof.
  intros He Hm Hi Hshown.
  pose proof (post_send_email_refused NumberToString domain
                authorizedEmails body He Hm Hi) as Hrun.
  rewrite Hshown in Hrun.
  fold (post_send_email NumberToString domain) in Hrun. split; [exact Hrun |]. split.
  - intros addr Haddr. rewrite Haddr in Hshown. cbn in Hshown. congruence.
  - intros sv events. rewrite Hrun. split; reflexivity.
Qed.


(** C6.  For an allow-listed address and a truthy (so, for a string,
    non-empty) message, the provider's [send] is called exactly once,
    whatever it answers, and with the address as [to], the message as [text],
    the fixed subject and the sender built from the configured domain. *)
Theorem listed_email_is_dispatched_once
    (sv : Services) (body : Value) (addr : string) (events : list Doc) :
  addr ∈ authorizedEmails ->
  prop "email" body = VStr addr ->
  ToBoolean (prop "message" body) = true ->
  dispatched (calls (run sv (post_send_email NumberToString domain body) events)) =
    [ {[ "from" := VStr ("Mailgun Sandbox <postmaster@" +:+ domain +:+ ">");
         "to" := VStr addr;
         "subject" := VStr "Library Contact Message";
         "text" := prop "message" body ]} ].
Proof.
  intros Hin Hemail Hm.
  assert (ToBoolean (prop "email" body) = true) as He.
  { rewrite Hemail. unfold authorizedEmails in Hin.
    apply elem_of_cons in Hin as [-> | Hin]; [reflexivity |].
    apply list_elem_of_singleton in Hin as ->. reflexivity. }
  assert (includes authorizedEmails (prop "email" body) = true) as Hi.
  { rewrite Hemail. cbn [includes]. by apply bool_decide_eq_true. }
  unfold post_send_email.
  rewrite (post_send_email_accepted NumberToString domain _ body He Hm Hi).
  rewrite run_call. cbn [answer fst snd calls].
  unfold mail_of. rewrite Hemail.
  destruct (provider sv _) as [reply | e];
    rewrite run_call; cbn [answer fst snd calls run dispatched omap];
    reflexivity.
Qed.

End SendEmail.

(** ** The shape of every run *)

Section Shape.

Variable NumberToString : float -> string.
Variable domain : string.
Variable sv : Services.






End Shape.

(** ** The events routes *)

Lemma field_is_true (field operand : string) (doc : Doc) :
  field_is field operand doc = true <-> data doc !! field = Some (VStr operand).
Proof.
  unfold field_is. destruct (data doc !! field) as [[| | | | s | |] |];
    try (split; [discriminate | congruence]).
  rewrite String.eqb_eq. split; [by intros -> | congruence].
Qed.

Lemma prop_insert_ne (k k' : string) (v : Value) (fields : gmap string Value) :
  k <> k' -> prop k' (VObj (<[k := v]> fields)) = prop k' (VObj fields).
Proof. intros Hne. cbn [prop]. by rewrite lookup_insert_ne. Qed.

(** POST /events reads five properties of the body and nothing else. *)
Lemma post_events_ext (b1 b2 : Value) :
  nullish b1 = nullish b2 ->
  prop "title" b1 = prop "title" b2 ->
  prop "start" b1 = prop "start" b2 ->
  prop "remindAt" b1 = prop "remindAt" b2 ->
  prop "createdBy" b1 = prop "createdBy" b2 ->
  prop "notes" b1 = prop "notes" b2 ->
  post_events b1 = post_events b2.
Proof.
  intros Hn H1 H2 H3 H4 H5. unfold post_events.
  rewrite Hn, H1, H2, H3, H4, H5. reflexivity.
Qed.

Lemma event_of_dom (body : Value) : dom (event_of body) = the_five_fields.
Proof.
  unfold event_of, newEvent, the_five_fields.
  rewrite !dom_insert_L, dom_singleton_L. set_solver.
Qed.

Section Events.

Variable sv : Services.

(** C2.  While the store answers its reads, GET /api/events/:email answers
    200 with [success: true] and, in the store's order, exactly the documents
    whose [createdBy] is the very string of the path (possibly none), and
    GET /api/events answers all N documents; each document is returned as the
    object [{ id: doc.id, ...doc.data() }], which holds every stored field
    and the id of the document. *)
Theorem events_are_listed_by_creator (events : list Doc) (email : string) :
  store_fault sv (CollectionWhereGet "createdBy" email) events = None ->
  store_fault sv CollectionGet events = None ->
  run sv (get_api_events_email email) events =
    {| collection := events;
       calls := [CollectionWhereGet "createdBy" email];
       result :=
         Responded
           {| status := 200;
              json :=
                VObj {[ "success" := VBool true;
                        "events" :=
                          VArr (map with_id
                                  (List.filter (field_is "createdBy" email) events)) ]} |} |}
  /\ (forall doc : Doc,
        doc ∈ List.filter (field_is "createdBy" email) events <->
        doc ∈ events /\ data doc !! "createdBy" = Some (VStr email))
  /\ (forall doc : Doc,
        exists fields : gmap string Value,
          with_id doc = VObj fields
          /\ (forall k : string, k <> "id" -> fields !! k = data doc !! k)
          /\ (data doc !! "id" = None -> fields !! "id" = Some (VStr (id doc))))
  /\ collection (run sv get_api_events events) = events
  /\ result (run sv get_api_events events) =
       Responded
         {| status := 200;
            json := VObj {[ "success" := VBool true;
                            "events" := VArr (map with_id events) ]} |}
  /\ length (map with_id events) = length events.
Proof.
  intros Hwhere Hget.
  assert (run sv get_api_events events =
          {| collection := events;
             calls := CollectionGet ::
                      map (fun doc => ConsoleLog "📄 Firestore document:" (VObj (data doc)))
                        events;
             result :=
               Responded
                 {| status := 200;
                    json := VObj {[ "success" := VBool true;
                                    "events" := VArr (map with_id events) ]} |} |})
    as Hall.
  { unfold get_api_events. rewrite run_bind, run_perform.
    cbn [answer collection calls result]. rewrite Hget. cbn [fst snd].
    rewrite run_bind, run_forEach_log_push.
    cbn [collection calls result run respond app]. by rewrite app_nil_r. }
  split; [| split; [| split; [| split; [| split]]]].
  - unfold get_api_events_email. rewrite run_bind, run_perform.
    cbn [answer collection calls result]. rewrite Hwhere. cbn [fst snd].
    rewrite run_bind, run_forEach_push. reflexivity.
  - intros doc.
    rewrite !list_elem_of_In, filter_In, field_is_true. reflexivity.
  - intros doc. eexists. split; [reflexivity |]. split.
    + intros k Hk. rewrite lookup_union_l; [done |]. by apply lookup_singleton_ne.
    + intros Hid. rewrite lookup_union_r by done. apply lookup_singleton_eq.
  - by rewrite Hall.
  - by rewrite Hall.
  - apply length_map.
Qed.


End Events.

Section Creation.

Variable sv : Services.

(** C3.  For a body that supplies [title], [start], [remindAt] and
    [createdBy] (with truthy values, as the presence check asks) and omits
    [notes], when the store accepts the document, the handler hands [add]
    one document, the four fields as given and [notes] the empty string; the
    collection gains it under the id the store assigns, and the answer is 200
    with [success: true], that id, and the stored fields as [event]. *)
Theorem omitted_notes_are_empty (body : Value) (events : list Doc) :
  ToBoolean (prop "title" body) = true ->
  ToBoolean (prop "start" body) = true ->
  ToBoolean (prop "remindAt" body) = true ->
  ToBoolean (prop "createdBy" body) = true ->
  prop "notes" body = VUndefined ->
  store_fault sv (CollectionAdd (event_of body)) events = None ->
  event_of body =
    {[ "title" := prop "title" body;
       "start" := prop "start" body;
       "remindAt" := prop "remindAt" body;
       "createdBy" := prop "createdBy" body;
       "notes" := VStr "" ]}
  /\ event_of body !! "notes" = Some (VStr "")
  /\ run sv (post_events body) events =
     {| collection :=
          push events {| id := assign_id sv events (event_of body);
                         data := event_of body |};
        calls := [CollectionAdd (event_of body)];
        result :=
          Responded
            {| status := 200;
               json := VObj {[ "success" := VBool true;
                               "id" := VStr (assign_id sv events (event_of body));
                               "event" := VObj (event_of body) ]} |} |}.
Proof.
  intros H1 H2 H3 H4 Hnotes Hok.
  assert (event_fields_given body = true) as Hv.
  { unfold event_fields_given. by rewrite H1, H2, H3, H4. }
  assert (nullish body = false) as Hb by exact (truthy_prop_object _ _ H1).
  assert (event_of body !! "notes" = Some (VStr "")) as Hempty.
  { unfold event_of, newEvent. rewrite Hnotes. reflexivity. }
  split; [| split; [exact Hempty |]].
  - unfold event_of, newEvent. rewrite Hnotes. reflexivity.
  - destruct (post_events_runs sv body events) as [? ? | _ _ | e _ Hf | ?];
      try congruence.
    reflexivity.
Qed.

(** C9.  When POST /events succeeds, the one document handed to [add], stored
    and echoed has exactly the fields [title], [start], [remindAt],
    [createdBy] and [notes]: the first four as the body gives them, [notes]
    as given when truthy and the empty string otherwise; any other property
    of the body is read by nothing, so leaving it out changes neither the
    stored document nor the answer. *)
Theorem stored_event_has_five_fields
    (body : Value) (events : list Doc) (r : Response) :
  result (run sv (post_events body) events) = Responded r ->
  status r = 200 ->
  exists (d : gmap string Value) (docRef_id : string),
    calls (run sv (post_events body) events) = [CollectionAdd d]
    /\ collection (run sv (post_events body) events) =
       push events {| id := docRef_id; data := d |}
    /\ json r = VObj {[ "success" := VBool true;
                        "id" := VStr docRef_id;
                        "event" := VObj d ]}
    /\ dom d = {[ "title"; "start"; "remindAt"; "createdBy"; "notes" ]}
    /\ d !! "title" = Some (prop "title" body)
    /\ d !! "start" = Some (prop "start" body)
    /\ d !! "remindAt" = Some (prop "remindAt" body)
    /\ d !! "createdBy" = Some (prop "createdBy" body)
    /\ d !! "notes" = Some (if ToBoolean (prop "notes" body)
                            then prop "notes" body else VStr "")
    /\ (forall (fields : gmap string Value) (k : string) (v : Value),
          body = VObj fields ->
          k ∉ ({[ "title"; "start"; "remindAt"; "createdBy"; "notes" ]} : gset string) ->
          post_events (VObj (<[k := v]> fields)) = post_events body).
Proof.
  intros Hres H200.
  destruct (post_events_runs sv body events) as [? ? | Hv Hf | e Hv Hf | ?];
    cbn [result] in Hres; try discriminate;
    injection Hres as <-; cbn [status created server_error] in H200;
    try discriminate.
  exists (event_of body), (assign_id sv events (event_of body)).
  do 3 (split; [reflexivity |]).
  split; [apply event_of_dom |].
  do 5 (split; [reflexivity |]).
  intros fields k v -> Hk.
  apply post_events_ext; [reflexivity | apply prop_insert_ne ..];
    intros ->; apply Hk; set_solver.
Qed.

(** C10.  When POST /events succeeds, the [event] of the answer is the very
    document that was handed to [add] and that the collection gained, and the
    [id] of the answer is the id under which it was stored. *)
Theorem echoed_event_is_the_stored_one
    (body : Value) (events : list Doc) (r : Response) :
  result (run sv (post_events body) events) = Responded r ->
  status r = 200 ->
  exists (d : gmap string Value) (docRef_id : string),
    added (calls (run sv (post_events body) events)) = [d]
    /\ collection (run sv (post_events body) events) =
       push events {| id := docRef_id; data := d |}
    /\ prop "event" (json r) = VObj d
    /\ prop "id" (json r) = VStr docRef_id
    /\ prop "success" (json r) = VBool true.
Proof.
  intros Hres H200.
  destruct (post_events_runs sv body events) as [? ? | Hv Hf | e Hv Hf | ?];
    cbn [result] in Hres; try discriminate;
    injection Hres as <-; cbn [status created server_error] in H200;
    try discriminate.
  exists (event_of body), (assign_id sv events (event_of body)).
  do 4 (split; [reflexivity |]). reflexivity.
Qed.

End Creation.

(** ** Every route *)

Lemma console_never_fails (sv : Services) (events : list Doc) (o : Op) :
  external o = false -> failure sv events o = None.
Proof. destruct o; cbn; congruence. Qed.

Section EveryRoute.

Variable NumberToString : float -> string.
Variable domain : string.
Variable sv : Services.

(** C8.  The presence checks test truthiness.  A body in which [email] or
    [message] is falsy (the empty string, [0], [false], [null]) is answered
    400 by POST /send-email, and a body in which [title], [start], [remindAt]
    or [createdBy] is falsy is answered 400 by POST /events; in both cases the
    handler behaves exactly as on the body without that property. *)
Theorem falsy_field_is_400 (body : Value) :
  nullish body = false ->
  (ToBoolean (prop "email" body) = false \/ ToBoolean (prop "message" body) = false ->
     post_send_email NumberToString domain body =
       respond 400 (VObj {[ "success" := VBool false; "error" := VStr "Missing fields" ]})
     /\ forall (fields : gmap string Value) (k : string),
          body = VObj fields -> k ∈ ["email"; "message"] ->
          ToBoolean (prop k body) = false ->
          post_send_email NumberToString domain (VObj (delete k fields)) =
          post_send_email NumberToString domain body)
  /\ (ToBoolean (prop "title" body) = false \/ ToBoolean (prop "start" body) = false
      \/ ToBoolean (prop "remindAt" body) = false
      \/ ToBoolean (prop "createdBy" body) = false ->
        post_events body =
          respond 400 (VObj {[ "success" := VBool false;
                               "error" := VStr "Missing required fields" ]})
        /\ forall (fields : gmap string Value) (k : string),
             body = VObj fields -> k ∈ ["title"; "start"; "remindAt"; "createdBy"] ->
             ToBoolean (prop k body) = false ->
             post_events (VObj (delete k fields)) = post_events body).
Proof.
  intros Hb. split.
  - intros Hfalsy.
    assert (ToBoolean (prop "email" body) && ToBoolean (prop "message" body) = false)
      as Hv.
    { destruct Hfalsy as [-> | ->]; [reflexivity | apply andb_false_r]. }
    unfold post_send_email.
    rewrite (post_send_email_invalid NumberToString domain _ body Hb Hv).
    split; [reflexivity |].
    intros fields k -> Hk _.
    apply post_send_email_invalid; [reflexivity |].
    apply elem_of_cons in Hk as [-> | Hk].
    + cbn [prop]. by rewrite lookup_delete_eq.
    + apply list_elem_of_singleton in Hk as ->.
      cbn [prop]. rewrite lookup_delete_eq. apply andb_false_r.
  - intros Hfalsy.
    assert (event_fields_given body = false) as Hv.
    { unfold event_fields_given.
      destruct Hfalsy as [-> | [-> | [-> | ->]]];
        rewrite ?andb_false_r; reflexivity. }
    rewrite (post_events_invalid body Hb Hv).
    split; [reflexivity |].
    intros fields k -> Hk _.
    apply post_events_invalid; [reflexivity |].
    unfold event_fields_given.
    repeat (apply elem_of_cons in Hk as [-> | Hk];
            [cbn [prop]; rewrite lookup_delete_eq; cbn [default ToBoolean];
             rewrite ?andb_false_r; reflexivity |]).
    by apply elem_of_nil in Hk.
Qed.

End EveryRoute.

(** ** The theorems at concrete requests *)

(** C1 as stated fails: an address that is not on the allow-list, sent with an
    empty message, is answered 400 by the presence check, not 403. *)
Lemma unlisted_email_with_empty_message_is_400 :
  includes authorizedEmails (prop "email" Try.not_listed_empty) = false
  /\ post_send_email Try.nts Try.dom0 Try.not_listed_empty =
     respond 400 (VObj {[ "success" := VBool false; "error" := VStr "Missing fields" ]})
  /\ result (run Try.healthy (post_send_email Try.nts Try.dom0 Try.not_listed_empty) []) <>
     Responded
       {| status := 403;
          json :=
            VObj {[ "success" := VBool false;
                    "error" :=
                      VStr ("The email " +:+ dquote +:+ "not-listed@x.com" +:+ dquote
                              +:+ " is not authorized in the Mailgun Sandbox.") ]} |}.
Proof. split; [reflexivity |]. split; [reflexivity | discriminate]. Qed.



Lemma unlisted_email_is_403_at_not_listed :
  ToBoolean (prop "email" Try.not_listed) = true
  /\ ToBoolean (prop "message" Try.not_listed) = true
  /\ includes authorizedEmails (prop "email" Try.not_listed) = false
  /\ ToString Try.nts (prop "email" Try.not_listed) = Some "not-listed@x.com"
  /\ post_send_email Try.nts Try.dom0 Try.not_listed =
     respond 403
       (VObj {[ "success" := VBool false;
                "error" :=
                  VStr ("The email " +:+ dquote +:+ "not-listed@x.com" +:+ dquote
                          +:+ " is not authorized in the Mailgun Sandbox.") ]}).
Proof.
  do 4 (split; [reflexivity |]).
  exact (proj1 (unlisted_email_is_403 Try.nts Try.dom0 Try.not_listed
                  "not-listed@x.com" eq_refl eq_refl eq_refl eq_refl)).
Defined.

Lemma events_are_listed_by_creator_at_three_documents :
  store_fault Try.healthy (CollectionWhereGet "createdBy" "a@x.com") Try.three = None
  /\ store_fault Try.healthy CollectionGet Try.three = None
  /\ run Try.healthy (get_api_events_email "a@x.com") Try.three =
     {| collection := Try.three;
        calls := [CollectionWhereGet "createdBy" "a@x.com"];
        result :=
          Responded
            {| status := 200;
               json :=
                 VObj {[ "success" := VBool true;
                         "events" :=
                           VArr [ VObj {[ "id" := VStr "e1";
                                          "title" := VStr "Talk";
                                          "createdBy" := VStr "a@x.com" ]} ] ]} |} |}.
Proof.
  do 2 (split; [reflexivity |]).
  exact (proj1 (events_are_listed_by_creator Try.healthy Try.three "a@x.com"
                  eq_refl eq_refl)).
Defined.

Lemma omitted_notes_are_empty_at_talk :
  ToBoolean (prop "title" Try.talk) = true
  /\ ToBoolean (prop "start" Try.talk) = true
  /\ ToBoolean (prop "remindAt" Try.talk) = true
  /\ ToBoolean (prop "createdBy" Try.talk) = true
  /\ prop "notes" Try.talk = VUndefined
  /\ store_fault Try.healthy (CollectionAdd (event_of Try.talk)) [] = None
  /\ event_of Try.talk = Try.talk_event
  /\ run Try.healthy (post_events Try.talk) [] =
     {| collection := [ {| id := "doc-1"; data := Try.talk_event |} ];
        calls := [CollectionAdd Try.talk_event];
        result :=
          Responded
            {| status := 200;
               json := VObj {[ "success" := VBool true;
                               "id" := VStr "doc-1";
                               "event" := VObj Try.talk_event ]} |} |}.
Proof.
  do 6 (split; [reflexivity |]).
  destruct (omitted_notes_are_empty Try.healthy Try.talk []
              eq_refl eq_refl eq_refl eq_refl eq_refl eq_refl) as (Hevent & _ & Hrun).
  split; [exact Hevent | exact Hrun].
Defined.



Lemma listed_email_is_dispatched_once_at_listed :
  "kche0224@student.monash.edu" ∈ authorizedEmails
  /\ prop "email" Try.listed = VStr "kche0224@student.monash.edu"
  /\ ToBoolean (prop "message" Try.listed) = true
  /\ dispatched (calls (run Try.down (post_send_email Try.nts Try.dom0 Try.listed) [])) =
     [ {[ "from" := VStr "Mailgun Sandbox <postmaster@sandbox.mailgun.org>";
          "to" := VStr "kche0224@student.monash.edu";
          "subject" := VStr "Library Contact Message";
          "text" := VStr "hello" ]} ].
Proof.
  assert ("kche0224@student.monash.edu" ∈ authorizedEmails) as Hin.
  { apply list_elem_of_further, list_elem_of_here. }
  split; [exact Hin |]. do 2 (split; [reflexivity |]).
  exact (listed_email_is_dispatched_once Try.nts Try.dom0 Try.down Try.listed
           "kche0224@student.monash.edu" [] Hin eq_refl eq_refl).
Defined.

Lemma falsy_field_is_400_at_blank :
  nullish Try.blank = false
  /\ ToBoolean (prop "email" Try.blank) = false
  /\ ToBoolean (prop "title" Try.blank) = false
  /\ post_send_email Try.nts Try.dom0 Try.blank =
     respond 400 (VObj {[ "success" := VBool false; "error" := VStr "Missing fields" ]})
  /\ post_events Try.blank =
     respond 400 (VObj {[ "success" := VBool false;
                          "error" := VStr "Missing required fields" ]}).
Proof.
  do 3 (split; [reflexivity |]).
  destruct (falsy_field_is_400 Try.nts Try.dom0 Try.blank eq_refl) as [Hsend Hevents].
  split.
  - exact (proj1 (Hsend (or_introl eq_refl))).
  - exact (proj1 (Hevents (or_introl eq_refl))).
Defined.

Lemma stored_event_has_five_fields_at_talk :
  result (run Try.healthy (post_events Try.talk_in_colour) []) =
    Responded (created "doc-1" Try.talk_event)
  /\ status (created "doc-1" Try.talk_event) = 200
  /\ exists (d : gmap string Value) (docRef_id : string),
       calls (run Try.healthy (post_events Try.talk_in_colour) []) = [CollectionAdd d]
       /\ collection (run Try.healthy (post_events Try.talk_in_colour) []) =
          push [] {| id := docRef_id; data := d |}
       /\ json (created "doc-1" Try.talk_event) =
          VObj {[ "success" := VBool true; "id" := VStr docRef_id; "event" := VObj d ]}
       /\ dom d = {[ "title"; "start"; "remindAt"; "createdBy"; "notes" ]}.
Proof.
  do 2 (split; [reflexivity |]).
  destruct (stored_event_has_five_fields Try.healthy Try.talk_in_colour []
              (created "doc-1" Try.talk_event) eq_refl eq_refl)
    as (d & docRef_id & Hcalls & Hcoll & Hjson & Hdom & _).
  exists d, docRef_id. auto.
Defined.

Lemma echoed_event_is_the_stored_one_at_talk :
  result (run Try.healthy (post_events Try.talk) []) =
    Responded (created "doc-1" Try.talk_event)
  /\ status (created "doc-1" Try.talk_event) = 200
  /\ exists (d : gmap string Value) (docRef_id : string),
       added (calls (run Try.healthy (post_events Try.talk) [])) = [d]
       /\ collection (run Try.healthy (post_events Try.talk) []) =
          push [] {| id := docRef_id; data := d |}
       /\ prop "event" (json (created "doc-1" Try.talk_event)) = VObj d.
Proof.
  do 2 (split; [reflexivity |]).
  destruct (echoed_event_is_the_stored_one Try.healthy Try.talk []
              (created "doc-1" Try.talk_event) eq_refl eq_refl)
    as (d & docRef_id & Hadded & Hcoll & Hevent & _).
  exists d, docRef_id. auto.
Defined.

(** ** Every run, exactly *)

Section Exact.

Variable NumberToString : float -> string.
Variable domain : string.
Variable sv : Services.

Lemma run_get_api_events (events : list Doc) :
  run sv get_api_events events =
  match store_fault sv CollectionGet events with
  | Some e =>
      {| collection := events;
         calls := [CollectionGet; ConsoleError "❌ Firestore Error:" e];
         result := Responded (server_error e) |}
  | None =>
      {| collection := events;
         calls := CollectionGet ::
                  map (fun doc => ConsoleLog "📄 Firestore document:" (VObj (data doc)))
                    events;
         result :=
           Responded
             {| status := 200;
                json := VObj {[ "success" := VBool true;
                                "events" := VArr (map with_id events) ]} |} |}
  end.
Proof.
  unfold get_api_events. rewrite run_bind, run_perform.
  cbn [answer collection calls result].
  destruct (store_fault sv CollectionGet events) as [e |]; cbn [fst snd].
  - rewrite run_bind, run_perform. reflexivity.
  - rewrite run_bind, run_forEach_log_push.
    cbn [collection calls result run respond app]. by rewrite app_nil_r.
Qed.

Lemma run_get_api_events_email (email : string) (events : list Doc) :
  run sv (get_api_events_email email) events =
  match store_fault sv (CollectionWhereGet "createdBy" email) events with
  | Some e =>
      {| collection := events;
         calls := [CollectionWhereGet "createdBy" email;
                   ConsoleError "❌ Firestore Error:" e];
         result := Responded (server_error e) |}
  | None =>
      {| collection := events;
         calls := [CollectionWhereGet "createdBy" email];
         result :=
           Responded
             {| status := 200;
                json :=
                  VObj {[ "success" := VBool true;
                          "events" :=
                            VArr (map with_id
                                    (List.filter (field_is "createdBy" email) events)) ]} |} |}
  end.
Proof.
  unfold get_api_events_email. rewrite run_bind, run_perform.
  cbn [answer collection calls result].
  destruct (store_fault sv (CollectionWhereGet "createdBy" email) events) as [e |];
    cbn [fst snd].
  - rewrite run_bind, run_perform. reflexivity.
  - rewrite run_bind, run_forEach_push. reflexivity.
Qed.

Lemma run_post_send_email_accepted (body : Value) (events : list Doc) :
  ToBoolean (prop "email" body) = true ->
  ToBoolean (prop "message" body) = true ->
  includes authorizedEmails (prop "email" body) = true ->
  run sv (post_send_email NumberToString domain body) events =
  match provider sv (mail_of domain body) with
  | Resolved reply =>
      {| collection := events;
         calls := [MessagesSend (mail_of domain body);
                   ConsoleLog "✅ Email sent:" reply];
         result :=
           Responded
             {| status := 200;
                json := VObj {[ "success" := VBool true; "body" := reply ]} |} |}
  | Rejected e =>
      {| collection := events;
         calls := [MessagesSend (mail_of domain body);
                   ConsoleError "❌ Mailgun Error:" e];
         result := Responded (server_error e) |}
  end.
Proof.
  intros He Hm Hi. unfold post_send_email.
  rewrite (post_send_email_accepted NumberToString domain _ body He Hm Hi).
  rewrite run_call. cbn [answer fst snd].
  destruct (provider sv (mail_of domain body)) as [reply | e];
    rewrite run_call; reflexivity.
Qed.

(** A request that POST /send-email does not pass on to the provider makes no
    call at all and leaves the collection alone. *)
Lemma run_post_send_email_stopped (body : Value) (events : list Doc) :
  ToBoolean (prop "email" body) && ToBoolean (prop "message" body)
  && includes authorizedEmails (prop "email" body) = false ->
  collection (run sv (post_send_email NumberToString domain body) events) = events
  /\ calls (run sv (post_send_email NumberToString domain body) events) = []
  /\ (result (run sv (post_send_email NumberToString domain body) events) = ThrewTypeError
      \/ exists (code : nat) (msg : string),
           (code = 400 \/ code = 403)
           /\ result (run sv (post_send_email NumberToString domain body) events) =
              Responded {| status := code; json := failure_body msg |}).
Proof.
  intros Hstop. unfold post_send_email.
  destruct (nullish body) eqn:Hb.
  { rewrite post_send_email_nullish by done. cbn. auto. }
  destruct (ToBoolean (prop "email" body)) eqn:He.
  2: { rewrite post_send_email_invalid by (by rewrite ?He). cbn.
       do 2 (split; [done |]). right. exists 400, "Missing fields". auto. }
  destruct (ToBoolean (prop "message" body)) eqn:Hm.
  2: { rewrite post_send_email_invalid by (by rewrite ?He, ?Hm). cbn.
       do 2 (split; [done |]). right. exists 400, "Missing fields". auto. }
  cbn [andb] in Hstop. rewrite post_send_email_refused by done.
  destruct (ToString NumberToString (prop "email" body)) as [shown |]; cbn.
  - do 2 (split; [done |]). right. exists 403, (not_authorized shown). auto.
  - auto.
Qed.

Lemma includes_true (l : list string) (v : Value) :
  includes l v = true -> exists addr : string, v = VStr addr /\ addr ∈ l.
Proof.
  destruct v; cbn [includes]; try discriminate.
  intros H. apply bool_decide_eq_true in H. eauto.
Qed.

(** The mails a run hands to the provider are those [mail_sent] names. *)
Lemma dispatched_app (req : Request) (events : list Doc) :
  dispatched (calls (run sv (app NumberToString domain req) events)) =
  mail_sent domain req.
Proof.
  destruct req as [body | | email | body]; cbn [app mail_sent].
  - destruct (ToBoolean (prop "email" body) && ToBoolean (prop "message" body)
              && includes authorizedEmails (prop "email" body)) eqn:Hgo.
    + apply andb_prop in Hgo as [Hgo Hi]. apply andb_prop in Hgo as [He Hm].
      rewrite run_post_send_email_accepted by done.
      destruct (provider sv (mail_of domain body)); reflexivity.
    + destruct (run_post_send_email_stopped body events Hgo) as (_ & -> & _).
      reflexivity.
  - rewrite run_get_api_events.
    destruct (store_fault sv CollectionGet events); [reflexivity |].
    cbn [calls dispatched omap]. induction events as [| doc rest IH]; [reflexivity |].
    cbn [map omap]. exact IH.
  - rewrite run_get_api_events_email.
    destruct (store_fault sv _ events); reflexivity.
  - destruct (post_events_runs sv body events); reflexivity.
Qed.

End Exact.

(** ** Failed calls and thrown errors *)

Section Failures.

Variable NumberToString : float -> string.
Variable domain : string.
Variable sv : Services.




End Failures.

(** ** What the routes never do *)

Lemma filter_external_logs (logs : list Op) :
  Forall (fun l => external l = false) logs -> List.filter external logs = [].
Proof.
  induction 1 as [| l logs Hl _ IH]; [reflexivity |].
  cbn [List.filter]. rewrite Hl. exact IH.
Qed.

Lemma document_logs_are_console (marker : string) (docs : list Doc) :
  Forall (fun l => external l = false)
    (map (fun doc => ConsoleLog marker (VObj (data doc))) docs).
Proof. induction docs; constructor; [reflexivity | assumption]. Qed.

Section Safety.

Variable NumberToString : float -> string.
Variable domain : string.
Variable sv : Services.

(** X1.  Whatever the request and whatever the services answer, a mail handed
    to the provider is addressed to a string of the allow-list, carries the
    fixed subject and the sender of the configured domain, and has a truthy
    text. *)
Theorem only_listed_addresses_are_mailed
    (req : Request) (events : list Doc) (mail : gmap string Value) :
  mail ∈ dispatched (calls (run sv (app NumberToString domain req) events)) ->
  exists (addr : string) (text : Value),
    addr ∈ authorizedEmails
    /\ ToBoolean text = true
    /\ mail = {[ "from" := VStr ("Mailgun Sandbox <postmaster@" +:+ domain +:+ ">");
                 "to" := VStr addr;
                 "subject" := VStr "Library Contact Message";
                 "text" := text ]}.
Proof.
  rewrite dispatched_app.
  destruct req as [body | | email | body]; cbn [mail_sent];
    try (intros Hin; by apply elem_of_nil in Hin).
  destruct (ToBoolean (prop "email" body)) eqn:He;
    [| intros Hin; by apply elem_of_nil in Hin].
  destruct (ToBoolean (prop "message" body)) eqn:Hm;
    [| intros Hin; by apply elem_of_nil in Hin].
  destruct (includes authorizedEmails (prop "email" body)) eqn:Hi;
    [| intros Hin; by apply elem_of_nil in Hin].
  cbn [andb]. intros Hin. apply list_elem_of_singleton in Hin as ->.
  apply includes_true in Hi as (addr & Haddr & Hlisted).
  exists addr, (prop "message" body). split; [done |]. split; [done |].
  unfold mail_of. by rewrite Haddr.
Qed.

(** X2.  When the address is on the allow-list, the message truthy and the
    provider answers [reply], POST /send-email hands over one mail, logs the
    reply and answers 200 with [{ success: true, body: reply }]; the
    collection is not touched. *)
Theorem accepted_mail_is_answered_200
    (body : Value) (addr : string) (reply : Value) (events : list Doc) :
  addr ∈ authorizedEmails ->
  prop "email" body = VStr addr ->
  ToBoolean (prop "message" body) = true ->
  provider sv (mail_of domain body) = Resolved reply ->
  run sv (post_send_email NumberToString domain body) events =
  {| collection := events;
     calls := [MessagesSend (mail_of domain body); ConsoleLog "✅ Email sent:" reply];
     result :=
       Responded
         {| status := 200;
            json := VObj {[ "success" := VBool true; "body" := reply ]} |} |}.
Proof.
  intros Hin Hemail Hm Hreply.
  assert (ToBoolean (prop "email" body) = true) as He.
  { rewrite Hemail. unfold authorizedEmails in Hin.
    apply elem_of_cons in Hin as [-> | Hin]; [reflexivity |].
    apply list_elem_of_singleton in Hin as ->. reflexivity. }
  assert (includes authorizedEmails (prop "email" body) = true) as Hi.
  { rewrite Hemail. cbn [includes]. by apply bool_decide_eq_true. }
  rewrite run_post_send_email_accepted by done. by rewrite Hreply.
Qed.

(** X3.  On every route, a failed call to the store or to the provider is
    followed by exactly one [console.error], under the marker of the route and
    with the very error of the call, and by nothing else. *)
Theorem failed_call_is_logged_once
    (req : Request) (events : list Doc) (o : Op) (e : JsError) :
  o ∈ calls (run sv (app NumberToString domain req) events) ->
  failure sv events o = Some e ->
  calls (run sv (app NumberToString domain req) events) =
  [o; ConsoleError (error_marker req) e].
Proof.
  intros Hin Hfail.
  assert (forall (o0 : Op) (marker : string) (e0 : JsError),
            failure sv events o0 = Some e0 ->
            o ∈ [o0; ConsoleError marker e0] ->
            [o0; ConsoleError marker e0] = [o; ConsoleError marker e]) as Hfailed.
  { intros o0 marker e0 H0 Ho. apply elem_of_cons in Ho as [-> | Ho].
    - congruence.
    - apply list_elem_of_singleton in Ho as ->. discriminate. }
  assert (forall (o0 : Op) (logs : list Op),
            failure sv events o0 = None ->
            Forall (fun l => external l = false) logs ->
            o ∈ o0 :: logs -> False) as Hworked.
  { intros o0 logs H0 Hlogs Ho. apply elem_of_cons in Ho as [-> | Ho]; [congruence |].
    rewrite Forall_forall in Hlogs.
    rewrite (console_never_fails sv events o (Hlogs o Ho)) in Hfail. discriminate. }
  destruct req as [body | | email | body]; cbn [app error_marker] in *.
  - destruct (ToBoolean (prop "email" body) && ToBoolean (prop "message" body)
              && includes authorizedEmails (prop "email" body)) eqn:Hgo.
    + apply andb_prop in Hgo as [Hgo Hi]. apply andb_prop in Hgo as [He Hm].
      rewrite run_post_send_email_accepted in * by done.
      destruct (provider sv (mail_of domain body)) as [reply | e0] eqn:Hp;
        cbn [calls] in *.
      * exfalso. eapply Hworked; [| | exact Hin];
          [by cbn; rewrite Hp | by repeat constructor].
      * apply Hfailed; [by cbn; rewrite Hp | exact Hin].
    + destruct (run_post_send_email_stopped NumberToString domain sv body events Hgo)
        as (_ & Hnone & _).
      rewrite Hnone in Hin. by apply elem_of_nil in Hin.
  - rewrite run_get_api_events in *.
    destruct (store_fault sv CollectionGet events) as [e0 |] eqn:Hf; cbn [calls] in *.
    + by apply Hfailed.
    + exfalso. eapply Hworked; [| | exact Hin];
        [exact Hf | apply document_logs_are_console].
  - rewrite run_get_api_events_email in *.
    destruct (store_fault sv (CollectionWhereGet "createdBy" email) events)
      as [e0 |] eqn:Hf; cbn [calls] in *.
    + by apply Hfailed.
    + exfalso. eapply Hworked; [| | exact Hin]; [exact Hf | constructor].
  - destruct (post_events_runs sv body events) as [? ? | Hv Hf | e0 Hv Hf | ?];
      cbn [calls] in *.
    + by apply elem_of_nil in Hin.
    + exfalso. eapply Hworked; [| | exact Hin]; [exact Hf | constructor].
    + by apply Hfailed.
    + by apply elem_of_nil in Hin.
Qed.

(** The routes that read: the collection after them is the collection before. *)
Lemma send_email_keeps_collection (body : Value) (events : list Doc) :
  collection (run sv (post_send_email NumberToString domain body) events) = events.
Proof.
  destruct (ToBoolean (prop "email" body) && ToBoolean (prop "message" body)
            && includes authorizedEmails (prop "email" body)) eqn:Hgo.
  - apply andb_prop in Hgo as [Hgo Hi]. apply andb_prop in Hgo as [He Hm].
    rewrite run_post_send_email_accepted by done.
    by destruct (provider sv (mail_of domain body)).
  - by destruct (run_post_send_email_stopped NumberToString domain sv body events Hgo)
      as (-> & _).
Qed.

Lemma get_api_events_keeps_collection (events : list Doc) :
  collection (run sv get_api_events events) = events.
Proof. rewrite run_get_api_events. by destruct (store_fault sv CollectionGet events). Qed.

Lemma get_api_events_email_keeps_collection (email : string) (events : list Doc) :
  collection (run sv (get_api_events_email email) events) = events.
Proof. rewrite run_get_api_events_email. by destruct (store_fault sv _ events). Qed.

(** X4.  POST /send-email and the two GET routes leave the collection as it
    was, whatever the request and whatever the services answer: only
    POST /events writes. *)
Theorem only_post_events_writes (events : list Doc) :
  (forall body : Value,
     collection (run sv (post_send_email NumberToString domain body) events) = events)
  /\ collection (run sv get_api_events events) = events
  /\ (forall email : string,
        collection (run sv (get_api_events_email email) events) = events).
Proof.
  split; [| split].
  - intros body. apply send_email_keeps_collection.
  - apply get_api_events_keeps_collection.
  - intros email. apply get_api_events_email_keeps_collection.
Qed.

End Safety.

(** ** Answers and calls *)

Section Answers.

Variable NumberToString : float -> string.
Variable domain : string.
Variable sv : Services.

(** The four kinds of run, with the status codes the routes really use. *)
Lemma app_run_kinds (req : Request) (events : list Doc) :
  (result (run sv (app NumberToString domain req) events) = ThrewTypeError
   /\ calls (run sv (app NumberToString domain req) events) = [])
  \/ (exists (code : nat) (msg : string),
        (code = 400 \/ code = 403 /\ exists body, req = POST_send_email body)
        /\ result (run sv (app NumberToString domain req) events) =
           Responded {| status := code; json := failure_body msg |}
        /\ calls (run sv (app NumberToString domain req) events) = [])
  \/ (exists (o : Op) (e : JsError),
        result (run sv (app NumberToString domain req) events) =
        Responded (server_error e)
        /\ List.filter external (calls (run sv (app NumberToString domain req) events)) = [o])
  \/ (exists (o : Op) (body : Value),
        prop "success" body = VBool true
        /\ result (run sv (app NumberToString domain req) events) =
           Responded {| status := 200; json := body |}
        /\ List.filter external (calls (run sv (app NumberToString domain req) events)) = [o]).
Proof.
  destruct req as [body | | email | body]; cbn [app].
  - destruct (ToBoolean (prop "email" body) && ToBoolean (prop "message" body)
              && includes authorizedEmails (prop "email" body)) eqn:Hgo.
    + apply andb_prop in Hgo as [Hgo Hi]. apply andb_prop in Hgo as [He Hm].
      rewrite run_post_send_email_accepted by done.
      destruct (provider sv (mail_of domain body)) as [reply | e].
      * do 3 right. eexists _, _. split; [| split]; [| reflexivity |]; reflexivity.
      * do 2 right. left. eexists _, _. split; reflexivity.
    + destruct (run_post_send_email_stopped NumberToString domain sv body events Hgo)
        as (_ & Hnone & [Hthrew | (code & msg & Hcode & Hres)]).
      * by left.
      * right. left. exists code, msg. split; [| done].
        destruct Hcode as [-> | ->]; [by left | right; eauto].
  - rewrite run_get_api_events.
    destruct (store_fault sv CollectionGet events) as [e |].
    + do 2 right. left. eexists _, _. split; reflexivity.
    + do 3 right. eexists CollectionGet, _. split; [| split]; [| reflexivity |].
      * reflexivity.
      * cbn [calls List.filter external].
        by rewrite filter_external_logs by apply document_logs_are_console.
  - rewrite run_get_api_events_email.
    destruct (store_fault sv _ events) as [e |].
    + do 2 right. left. eexists _, _. split; reflexivity.
    + do 3 right. eexists _, _. split; [| split]; [| reflexivity |]; reflexivity.
  - destruct (post_events_runs sv body events) as [? ? | Hv Hf | e Hv Hf | ?].
    + right. left. eexists 400, _. split; [by left | split; reflexivity].
    + do 3 right. eexists _, _. split; [| split]; [| reflexivity |]; reflexivity.
    + do 2 right. left. eexists _, _. split; reflexivity.
    + left. split; reflexivity.
Qed.

(** X5.  A run makes one external call when it answers 200 or 500 and none
    otherwise: an answer 400 or 403, and a thrown error, come before any call
    to the store or the provider, and no call is ever made twice. *)
Theorem one_external_call_or_none (req : Request) (events : list Doc) :
  length (List.filter external (calls (run sv (app NumberToString domain req) events))) =
  match result (run sv (app NumberToString domain req) events) with
  | Responded r => if Nat.eqb (status r) 200 || Nat.eqb (status r) 500 then 1 else 0
  | ThrewTypeError => 0
  end.
Proof.
  destruct (app_run_kinds req events)
    as [[-> ->] | [(code & msg & Hcode & -> & ->)
       | [(o & e & -> & ->) | (o & body & _ & -> & ->)]]];
    try reflexivity.
  by destruct Hcode as [-> | [-> _]].
Qed.

(** X6.  Every answer has status 200, 400, 403 or 500, its [success] is
    [true] exactly when the status is 200, and only POST /send-email answers
    403. *)
Theorem success_agrees_with_status
    (req : Request) (events : list Doc) (r : Response) :
  result (run sv (app NumberToString domain req) events) = Responded r ->
  prop "success" (json r) = VBool (Nat.eqb (status r) 200)
  /\ status r ∈ [200; 400; 403; 500]
  /\ (status r = 403 -> exists body : Value, req = POST_send_email body).
Proof.
  intros Hres.
  destruct (app_run_kinds req events)
    as [[Hr _] | [(code & msg & Hcode & Hr & _)
       | [(o & e & Hr & _) | (o & body & Hsuccess & Hr & _)]]];
    rewrite Hr in Hres; try discriminate; injection Hres as <-; cbn [status json].
  - destruct Hcode as [-> | [-> Hsend]].
    + split; [reflexivity |]. split; [set_solver | discriminate].
    + split; [reflexivity |]. split; [| intros _; exact Hsend].
      apply list_elem_of_further, list_elem_of_further, list_elem_of_here.
  - split; [reflexivity |]. split; [set_solver | discriminate].
  - split; [exact Hsuccess |]. split; [set_solver | discriminate].
Qed.

End Answers.

(** ** Requests in sequence *)

Lemma event_of_shaped (body : Value) :
  event_fields_given body = true -> event_shaped (event_of body) = true.
Proof.
  intros Hv. unfold event_fields_given in Hv.
  apply andb_prop in Hv as [Hv H4]. apply andb_prop in Hv as [Hv H3].
  apply andb_prop in Hv as [H1 H2].
  unfold event_shaped. rewrite (bool_decide_eq_true_2 _ (event_of_dom body)).
  assert (forall k, truthy_at k (event_of body) =
                    match event_of body !! k with
                    | Some v => ToBoolean v
                    | None => false
                    end) as Hat by reflexivity.
  rewrite !Hat.
  change (event_of body !! "title") with (Some (prop "title" body)).
  change (event_of body !! "start") with (Some (prop "start" body)).
  change (event_of body !! "remindAt") with (Some (prop "remindAt" body)).
  change (event_of body !! "createdBy") with (Some (prop "createdBy" body)).
  change (event_of body !! "notes") with (Some (js_or (prop "notes" body) (VStr ""))).
  cbv beta iota. rewrite H1, H2, H3, H4. cbn [andb]. unfold js_or.
  destruct (ToBoolean (prop "notes" body)) eqn:Hn; [| reflexivity].
  destruct (prop "notes" body); try exact Hn; reflexivity.
Qed.


Section Sequence.

Variable NumberToString : float -> string.
Variable domain : string.
Variable sv : Services.

(** One request leaves the collection as it was or appends one document of
    the shape POST /events builds. *)
Lemma app_step (req : Request) (events : list Doc) :
  collection (run sv (app NumberToString domain req) events) = events
  \/ exists doc : Doc,
       event_shaped (data doc) = true
       /\ collection (run sv (app NumberToString domain req) events) = push events doc.
Proof.
  destruct req as [body | | email | body]; cbn [app].
  - left. apply send_email_keeps_collection.
  - left. apply get_api_events_keeps_collection.
  - left. apply get_api_events_email_keeps_collection.
  - destruct (post_events_runs sv body events) as [? ? | Hv Hf | e Hv Hf | ?];
      try (by left).
    right. eexists. split; [| reflexivity]. by apply event_of_shaped.
Qed.

Lemma serve_appends (reqs : list Request) (events : list Doc) :
  exists new : list Doc,
    (serve NumberToString domain sv reqs events).1 = (events ++ new)%list
    /\ length new <= length reqs
    /\ Forall (fun doc => event_shaped (data doc) = true) new.
Proof.
  revert events. induction reqs as [| req rest IH]; intros events.
  - exists []. cbn. rewrite app_nil_r. auto.
  - cbn [serve].
    destruct (IH (collection (run sv (app NumberToString domain req) events)))
      as (new & Hnew & Hlen & Hshaped).
    destruct (serve NumberToString domain sv rest
                (collection (run sv (app NumberToString domain req) events)))
      as [final outcomes].
    cbn [fst] in *.
    destruct (app_step req events) as [Hsame | (doc & Hdoc & Hpush)].
    + exists new. rewrite Hnew, Hsame. cbn [length]. split; [done |]. split; [lia | done].
    + exists (doc :: new). rewrite Hnew, Hpush. unfold push.
      rewrite <- app_assoc. cbn [app length]. split; [done |]. split; [lia |].
      by constructor.
Qed.


(** X8.  If every document of the collection has the shape POST /events
    builds (the five fields and no other, the required four truthy, [notes]
    truthy or the empty string), then so has every document after any
    sequence of requests. *)
Theorem served_collection_stays_shaped (reqs : list Request) (events : list Doc) :
  Forall (fun doc => event_shaped (data doc) = true) events ->
  Forall (fun doc => event_shaped (data doc) = true)
    (serve NumberToString domain sv reqs events).1.
Proof.
  intros Hevents.
  destruct (serve_appends reqs events) as (new & -> & _ & Hnew).
  by apply Forall_app.
Qed.

End Sequence.

(** ** Creating, then reading *)

Lemma filter_sublist {A : Type} (f : A -> bool) (l : list A) :
  sublist (List.filter f l) l.
Proof.
  induction l as [| x l IH]; cbn [List.filter]; [constructor |].
  destruct (f x); by constructor.
Qed.

Lemma map_sublist {A B : Type} (f : A -> B) (l1 l2 : list A) :
  sublist l1 l2 -> sublist (map f l1) (map f l2).
Proof. induction 1; cbn [map]; by constructor. Qed.

Lemma filter_push {A : Type} (f : A -> bool) (l : list A) (x : A) :
  List.filter f (push l x) =
  (List.filter f l ++ (if f x then [x] else []))%list.
Proof. unfold push. rewrite List.filter_app. reflexivity. Qed.

(** A new event read back: the stored fields and the id, no field lost. *)
Lemma with_id_event_of (i : string) (body : Value) :
  with_id {| id := i; data := event_of body |} =
  VObj (<["id" := VStr i]> (event_of body)).
Proof.
  unfold with_id. cbn [data id]. f_equal.
Qed.

Section RoundTrip.

Variable sv : Services.

(** X9.  An event that POST /events stored is listed by GET /api/events
    afterwards, with the fields of the [event] the POST answered and with the
    [id] it answered: the listing is, in whatever order the store lists, the
    listing before the POST and that one event more. *)
Theorem created_event_is_listed (body : Value) (events : list Doc) :
  event_fields_given body = true ->
  store_fault sv (CollectionAdd (event_of body)) events = None ->
  store_fault sv CollectionGet
    (collection (run sv (post_events body) events)) = None ->
  result (run sv (post_events body) events) =
    Responded (created (assign_id sv events (event_of body)) (event_of body))
  /\ exists listed : list Value,
       result (run sv get_api_events (collection (run sv (post_events body) events))) =
         Responded
           {| status := 200;
              json := VObj {[ "success" := VBool true; "events" := VArr listed ]} |}
       /\ listed ≡ₚ
          VObj (<["id" := VStr (assign_id sv events (event_of body))]> (event_of body))
            :: map with_id events.
Proof.
  intros Hv Hadd Hget. pose proof (fields_given_not_nullish body Hv) as Hb.
  destruct (post_events_runs sv body events) as [? ? | _ _ | e _ Hf | ?];
    try congruence.
  cbn [collection result] in *. split; [reflexivity |].
  rewrite run_get_api_events, Hget. cbn [result]. unfold push.
  eexists. split; [reflexivity |].
  rewrite map_app. cbn [map]. rewrite with_id_event_of.
  symmetry. apply Permutation_cons_append.
Qed.

(** X10.  An event stored with a string as [createdBy] is listed by
    GET /api/events/:email for that very string: the listing is, in whatever
    order the store lists, the listing for that string before the POST and
    that one event more. *)
Theorem created_event_is_listed_for_its_creator
    (body : Value) (creator : string) (events : list Doc) :
  event_fields_given body = true ->
  prop "createdBy" body = VStr creator ->
  store_fault sv (CollectionAdd (event_of body)) events = None ->
  store_fault sv (CollectionWhereGet "createdBy" creator)
    (collection (run sv (post_events body) events)) = None ->
  exists listed : list Value,
    result (run sv (get_api_events_email creator)
              (collection (run sv (post_events body) events))) =
      Responded
        {| status := 200;
           json := VObj {[ "success" := VBool true; "events" := VArr listed ]} |}
    /\ listed ≡ₚ
       VObj (<["id" := VStr (assign_id sv events (event_of body))]> (event_of body))
         :: map with_id (List.filter (field_is "createdBy" creator) events).
Proof.
  intros Hv Hcreator Hadd Hget. pose proof (fields_given_not_nullish body Hv) as Hb.
  destruct (post_events_runs sv body events) as [? ? | _ _ | e _ Hf | ?];
    try congruence.
  cbn [collection] in *.
  rewrite run_get_api_events_email, Hget. cbn [result].
  eexists. split; [reflexivity |].
  rewrite filter_push.
  assert (field_is "createdBy" creator
            {| id := assign_id sv events (event_of body); data := event_of body |} = true)
    as ->.
  { apply field_is_true. cbn [data]. by rewrite <- Hcreator. }
  rewrite map_app. cbn [map]. rewrite with_id_event_of.
  symmetry. apply Permutation_cons_append.
Qed.

(** X11.  POST /events changes what GET /api/events/:email lists for no
    address but the string it was given as [createdBy]; an event whose
    [createdBy] is not a string (a number, an object) is listed for no
    address at all. *)
Theorem created_event_is_listed_for_no_other
    (body : Value) (email : string) (events : list Doc) :
  prop "createdBy" body <> VStr email ->
  store_fault sv (CollectionWhereGet "createdBy" email)
    (collection (run sv (post_events body) events)) = None ->
  result (run sv (get_api_events_email email)
            (collection (run sv (post_events body) events))) =
  Responded
    {| status := 200;
       json :=
         VObj {[ "success" := VBool true;
                 "events" :=
                   VArr (map with_id
                           (List.filter (field_is "createdBy" email) events)) ]} |}.
Proof.
  intros Hother Hget.
  rewrite run_get_api_events_email, Hget. cbn [result].
  destruct (post_events_runs sv body events) as [? ? | _ _ | e _ Hf | ?];
    cbn [collection]; try reflexivity.
  rewrite filter_push.
  destruct (field_is "createdBy" email _) eqn:Hf.
  - apply field_is_true in Hf. cbn [data] in Hf.
    change (event_of body !! "createdBy") with (Some (prop "createdBy" body)) in Hf.
    congruence.
  - by rewrite app_nil_r.
Qed.

(** X12.  Nothing makes a request count once: the same body posted twice,
    and accepted twice, is stored twice, as two documents with the same
    fields. *)
Theorem repeated_post_is_stored_twice (body : Value) (events : list Doc) :
  event_fields_given body = true ->
  store_fault sv (CollectionAdd (event_of body)) events = None ->
  store_fault sv (CollectionAdd (event_of body))
    (collection (run sv (post_events body) events)) = None ->
  collection (run sv (post_events body) (collection (run sv (post_events body) events))) =
  (events ++
   [ {| id := assign_id sv events (event_of body); data := event_of body |};
     {| id := assign_id sv
                (collection (run sv (post_events body) events)) (event_of body);
        data := event_of body |} ])%list.
Proof.
  intros Hv Hfirst Hsecond. pose proof (fields_given_not_nullish body Hv) as Hb.
  destruct (post_events_runs sv body
              (collection (run sv (post_events body) events)))
    as [? ? | _ _ | e _ Hf | ?]; try congruence.
  cbn [collection].
  destruct (post_events_runs sv body events) as [? ? | _ _ | e _ Hf | ?];
    try congruence.
  cbn [collection]. unfold push. by rewrite <- app_assoc.
Qed.

(** X13.  On one collection, what GET /api/events/:email lists is part of
    what GET /api/events lists, in the same order, and a document listed for
    one address is listed for no other. *)
Theorem creator_listing_is_part_of_the_listing (email : string) (events : list Doc) :
  store_fault sv (CollectionWhereGet "createdBy" email) events = None ->
  store_fault sv CollectionGet events = None ->
  exists mine all : list Value,
    result (run sv (get_api_events_email email) events) =
      Responded
        {| status := 200;
           json := VObj {[ "success" := VBool true; "events" := VArr mine ]} |}
    /\ result (run sv get_api_events events) =
       Responded
         {| status := 200;
            json := VObj {[ "success" := VBool true; "events" := VArr all ]} |}
    /\ sublist mine all
    /\ (forall (other : string) (doc : Doc),
          other <> email ->
          doc ∈ List.filter (field_is "createdBy" email) events ->
          doc ∉ List.filter (field_is "createdBy" other) events).
Proof.
  intros Hwhere Hget.
  exists (map with_id (List.filter (field_is "createdBy" email) events)),
    (map with_id events).
  rewrite run_get_api_events_email, Hwhere, run_get_api_events, Hget.
  do 2 (split; [reflexivity |]). split.
  - apply map_sublist, filter_sublist.
  - intros other doc Hne Hmine Hother.
    apply list_elem_of_In, filter_In in Hmine as [_ Hmine].
    apply list_elem_of_In, filter_In in Hother as [_ Hother].
    apply field_is_true in Hmine, Hother. congruence.
Qed.

End RoundTrip.

(** ** Listing, logging, starting *)

Example Number_of_nat_three : Number_of_nat 3 = 3%float.
Proof. vm_compute. reflexivity. Qed.

Section Listing.

Variable sv : Services.

(** X14.  When the store answers, GET /api/events writes the fields of every
    document to the console, one line per document in the order of the
    collection, after its one read; GET /api/events/:email writes nothing. *)
Theorem listed_documents_are_logged (email : string) (events : list Doc) :
  store_fault sv CollectionGet events = None ->
  store_fault sv (CollectionWhereGet "createdBy" email) events = None ->
  calls (run sv get_api_events events) =
    CollectionGet ::
    map (fun doc => ConsoleLog "📄 Firestore document:" (VObj (data doc))) events
  /\ length (calls (run sv get_api_events events)) = S (length events)
  /\ calls (run sv (get_api_events_email email) events) =
     [CollectionWhereGet "createdBy" email].
Proof.
  intros Hget Hwhere.
  rewrite run_get_api_events, Hget, run_get_api_events_email, Hwhere.
  cbn [calls length]. by rewrite length_map.
Qed.

(** X15.  GET /api/events lists one object per document, in the order of the
    collection.  The object has every stored field, and its [id] is the id of
    the document unless the document stores a field named [id], which then
    takes its place. *)
Theorem listed_events_follow_the_collection (events : list Doc) :
  store_fault sv CollectionGet events = None ->
  exists listed : list Value,
    result (run sv get_api_events events) =
      Responded
        {| status := 200;
           json := VObj {[ "success" := VBool true; "events" := VArr listed ]} |}
    /\ length listed = length events
    /\ (forall (n : nat) (doc : Doc),
          events !! n = Some doc ->
          exists fields : gmap string Value,
            listed !! n = Some (VObj fields)
            /\ fields !! "id" = Some (default (VStr (id doc)) (data doc !! "id"))
            /\ (forall k : string, k <> "id" -> fields !! k = data doc !! k)).
Proof.
  intros Hget. exists (map with_id events).
  rewrite run_get_api_events, Hget. split; [reflexivity |].
  split; [apply length_map |].
  intros n doc Hn. exists (data doc ∪ {[ "id" := VStr (id doc) ]}).
  split; [| split].
  - change (map with_id events) with (with_id <$> events).
    rewrite list_lookup_fmap, Hn. reflexivity.
  - rewrite lookup_union. destruct (data doc !! "id") as [v |] eqn:Hid.
    + by rewrite lookup_singleton_eq.
    + by rewrite lookup_singleton_eq.
  - intros k Hk. rewrite lookup_union_l; [done |]. by apply lookup_singleton_ne.
Qed.

(** X16.  The connection test of the start reads the collection once and
    writes one line to the console, the number of documents or the error of
    the read; it never writes to the collection, so the requests answered
    after it are answered as without it. *)
Theorem connection_test_only_reads
    (NumberToString : float -> string) (domain : string)
    (reqs : list Request) (events : list Doc) :
  run sv connection_test events =
    {| collection := events;
       calls :=
         [ CollectionGet;
           match store_fault sv CollectionGet events with
           | Some e => ConsoleError "❌ Firestore connection failed:" e
           | None =>
               ConsoleLog "✅ Firestore connected, events count:"
                 (VNum (Number_of_nat (length events)))
           end ];
       result := tt |}
  /\ serve NumberToString domain sv reqs (collection (run sv connection_test events)) =
     serve NumberToString domain sv reqs events.
Proof.
  assert (collection (run sv connection_test events) = events
          /\ run sv connection_test events =
             {| collection := events;
                calls :=
                  [ CollectionGet;
                    match store_fault sv CollectionGet events with
                    | Some e => ConsoleError "❌ Firestore connection failed:" e
                    | None =>
                        ConsoleLog "✅ Firestore connected, events count:"
                          (VNum (Number_of_nat (length events)))
                    end ];
                result := tt |}) as [Hsame Hrun].
  { unfold connection_test. rewrite run_bind, run_perform.
    cbn [answer collection calls result].
    destruct (store_fault sv CollectionGet events) as [e |]; cbn [fst snd];
      split; reflexivity. }
  split; [exact Hrun | by rewrite Hsame].
Qed.

End Listing.

(** X17.  POST /send-email reads [email] and [message] and no other property
    of the body: any other property, added or changed, changes nothing of
    what the handler does. *)
Theorem send_email_reads_two_properties
    (NumberToString : float -> string) (domain : string)
    (fields : gmap string Value) (k : string) (v : Value) :
  k <> "email" -> k <> "message" ->
  post_send_email NumberToString domain (VObj (<[k := v]> fields)) =
  post_send_email NumberToString domain (VObj fields).
Proof.
  intros Hemail Hmessage. unfold post_send_email, post_send_email_over.
  cbn [nullish]. rewrite !(prop_insert_ne k) by done. reflexivity.
Qed.

(** ** These properties at concrete requests *)

Lemma only_listed_addresses_are_mailed_at_listed :
  Try.listed_mail ∈
    dispatched (calls (run Try.healthy
                         (app Try.nts Try.dom0 (POST_send_email Try.listed)) []))
  /\ exists (addr : string) (text : Value),
       addr ∈ authorizedEmails
       /\ ToBoolean text = true
       /\ Try.listed_mail =
          {[ "from" := VStr ("Mailgun Sandbox <postmaster@" +:+ Try.dom0 +:+ ">");
             "to" := VStr addr;
             "subject" := VStr "Library Contact Message";
             "text" := text ]}.
Proof.
  assert (Try.listed_mail ∈
          dispatched (calls (run Try.healthy
                               (app Try.nts Try.dom0 (POST_send_email Try.listed)) [])))
    as Hin by apply list_elem_of_here.
  split; [exact Hin |].
  exact (only_listed_addresses_are_mailed Try.nts Try.dom0 Try.healthy
           (POST_send_email Try.listed) [] Try.listed_mail Hin).
Defined.

Lemma accepted_mail_is_answered_200_at_listed :
  "kche0224@student.monash.edu" ∈ authorizedEmails
  /\ prop "email" Try.listed = VStr "kche0224@student.monash.edu"
  /\ ToBoolean (prop "message" Try.listed) = true
  /\ provider Try.healthy (mail_of Try.dom0 Try.listed) =
     Resolved (VObj {[ "message" := VStr "Queued. Thank you." ]})
  /\ result (run Try.healthy (post_send_email Try.nts Try.dom0 Try.listed) Try.three) =
     Responded
       {| status := 200;
          json :=
            VObj {[ "success" := VBool true;
                    "body" := VObj {[ "message" := VStr "Queued. Thank you." ]} ]} |}.
Proof.
  assert ("kche0224@student.monash.edu" ∈ authorizedEmails) as Hin.
  { apply list_elem_of_further, list_elem_of_here. }
  split; [exact Hin |]. do 3 (split; [reflexivity |]).
  rewrite (accepted_mail_is_answered_200 Try.nts Try.dom0 Try.healthy Try.listed
             "kche0224@student.monash.edu"
             (VObj {[ "message" := VStr "Queued. Thank you." ]}) Try.three
             Hin eq_refl eq_refl eq_refl).
  reflexivity.
Defined.

Lemma failed_call_is_logged_once_at_provider_down :
  MessagesSend Try.listed_mail ∈
    calls (run Try.down (app Try.nts Try.dom0 (POST_send_email Try.listed)) [])
  /\ failure Try.down [] (MessagesSend Try.listed_mail) =
     Some {| error_message := "Forbidden" |}
  /\ calls (run Try.down (app Try.nts Try.dom0 (POST_send_email Try.listed)) []) =
     [ MessagesSend Try.listed_mail;
       ConsoleError "❌ Mailgun Error:" {| error_message := "Forbidden" |} ].
Proof.
  assert (MessagesSend Try.listed_mail ∈
          calls (run Try.down (app Try.nts Try.dom0 (POST_send_email Try.listed)) []))
    as Hin by apply list_elem_of_here.
  split; [exact Hin |]. split; [reflexivity |].
  exact (failed_call_is_logged_once Try.nts Try.dom0 Try.down
           (POST_send_email Try.listed) [] (MessagesSend Try.listed_mail)
           {| error_message := "Forbidden" |} Hin eq_refl).
Defined.

Lemma success_agrees_with_status_at_not_listed :
  result (run Try.healthy (app Try.nts Try.dom0 (POST_send_email Try.not_listed)) []) =
    Responded
      {| status := 403;
         json := failure_body (not_authorized "not-listed@x.com") |}
  /\ prop "success" (failure_body (not_authorized "not-listed@x.com")) = VBool false
  /\ 403 ∈ [200; 400; 403; 500].
Proof.
  split; [reflexivity |].
  destruct (success_agrees_with_status Try.nts Try.dom0 Try.healthy
              (POST_send_email Try.not_listed) []
              {| status := 403;
                 json := failure_body (not_authorized "not-listed@x.com") |} eq_refl)
    as (Hsuccess & Hstatus & _).
  split; [exact Hsuccess | exact Hstatus].
Defined.

Lemma served_collection_stays_shaped_at_two_posts :
  Forall (fun doc => event_shaped (data doc) = true) []
  /\ Forall (fun doc => event_shaped (data doc) = true)
       (serve Try.nts Try.dom0 Try.healthy
          [POST_events Try.talk; GET_api_events; POST_events Try.talk_in_colour] []).1.
Proof.
  split; [constructor |].
  exact (served_collection_stays_shaped Try.nts Try.dom0 Try.healthy
           [POST_events Try.talk; GET_api_events; POST_events Try.talk_in_colour] []
           (Forall_nil_2 _)).
Defined.

Lemma created_event_is_listed_at_talk :
  event_fields_given Try.talk = true
  /\ store_fault Try.healthy (CollectionAdd (event_of Try.talk)) Try.three = None
  /\ store_fault Try.healthy CollectionGet
       (collection (run Try.healthy (post_events Try.talk) Try.three)) = None
  /\ exists listed : list Value,
       result (run Try.healthy get_api_events
                 (collection (run Try.healthy (post_events Try.talk) Try.three))) =
         Responded
           {| status := 200;
              json := VObj {[ "success" := VBool true; "events" := VArr listed ]} |}
       /\ listed ≡ₚ VObj (<["id" := VStr "doc-1"]> Try.talk_event) :: map with_id Try.three.
Proof.
  do 3 (split; [reflexivity |]).
  exact (proj2 (created_event_is_listed Try.healthy Try.talk Try.three
                  eq_refl eq_refl eq_refl)).
Defined.

Lemma created_event_is_listed_for_its_creator_at_talk :
  event_fields_given Try.talk = true
  /\ prop "createdBy" Try.talk = VStr "a@x.com"
  /\ store_fault Try.healthy (CollectionAdd (event_of Try.talk)) Try.three = None
  /\ store_fault Try.healthy (CollectionWhereGet "createdBy" "a@x.com")
       (collection (run Try.healthy (post_events Try.talk) Try.three)) = None
  /\ exists listed : list Value,
       result (run Try.healthy (get_api_events_email "a@x.com")
                 (collection (run Try.healthy (post_events Try.talk) Try.three))) =
         Responded
           {| status := 200;
              json := VObj {[ "success" := VBool true; "events" := VArr listed ]} |}
       /\ listed ≡ₚ
          [ VObj (<["id" := VStr "doc-1"]> Try.talk_event);
            VObj {[ "id" := VStr "e1";
                    "title" := VStr "Talk";
                    "createdBy" := VStr "a@x.com" ]} ].
Proof.
  do 4 (split; [reflexivity |]).
  exact (created_event_is_listed_for_its_creator Try.healthy Try.talk "a@x.com"
           Try.three eq_refl eq_refl eq_refl eq_refl).
Defined.

Lemma created_event_is_listed_for_no_other_at_number :
  prop "createdBy" Try.talk_by_number <> VStr "5"
  /\ store_fault Try.healthy (CollectionWhereGet "createdBy" "5")
       (collection (run Try.healthy (post_events Try.talk_by_number) Try.three)) = None
  /\ length (collection (run Try.healthy (post_events Try.talk_by_number) Try.three)) = 4
  /\ result (run Try.healthy (get_api_events_email "5")
               (collection (run Try.healthy (post_events Try.talk_by_number) Try.three))) =
     Responded
       {| status := 200;
          json := VObj {[ "success" := VBool true; "events" := VArr [] ]} |}.
Proof.
  assert (prop "createdBy" Try.talk_by_number <> VStr "5") as Hne by discriminate.
  split; [exact Hne |]. do 2 (split; [reflexivity |]).
  exact (created_event_is_listed_for_no_other Try.healthy Try.talk_by_number "5"
           Try.three Hne eq_refl).
Defined.

Lemma repeated_post_is_stored_twice_at_talk :
  event_fields_given Try.talk = true
  /\ store_fault Try.numbering (CollectionAdd (event_of Try.talk)) [] = None
  /\ store_fault Try.numbering (CollectionAdd (event_of Try.talk))
       (collection (run Try.numbering (post_events Try.talk) [])) = None
  /\ collection (run Try.numbering (post_events Try.talk)
                   (collection (run Try.numbering (post_events Try.talk) []))) =
     [ {| id := "doc"; data := Try.talk_event |};
       {| id := "doc+"; data := Try.talk_event |} ].
Proof.
  do 3 (split; [reflexivity |]).
  exact (repeated_post_is_stored_twice Try.numbering Try.talk []
           eq_refl eq_refl eq_refl).
Defined.

Lemma creator_listing_is_part_of_the_listing_at_three :
  store_fault Try.healthy (CollectionWhereGet "createdBy" "a@x.com") Try.three = None
  /\ store_fault Try.healthy CollectionGet Try.three = None
  /\ exists mine all : list Value,
       result (run Try.healthy (get_api_events_email "a@x.com") Try.three) =
         Responded
           {| status := 200;
              json := VObj {[ "success" := VBool true; "events" := VArr mine ]} |}
       /\ result (run Try.healthy get_api_events Try.three) =
          Responded
            {| status := 200;
               json := VObj {[ "success" := VBool true; "events" := VArr all ]} |}
       /\ sublist mine all.
Proof.
  do 2 (split; [reflexivity |]).
  destruct (creator_listing_is_part_of_the_listing Try.healthy "a@x.com" Try.three
              eq_refl eq_refl) as (mine & all & Hmine & Hall & Hsub & _).
  exists mine, all. auto.
Defined.

Lemma listed_documents_are_logged_at_three :
  store_fault Try.healthy CollectionGet Try.three = None
  /\ store_fault Try.healthy (CollectionWhereGet "createdBy" "a@x.com") Try.three = None
  /\ length (calls (run Try.healthy get_api_events Try.three)) = 4
  /\ calls (run Try.healthy (get_api_events_email "a@x.com") Try.three) =
     [CollectionWhereGet "createdBy" "a@x.com"].
Proof.
  do 2 (split; [reflexivity |]).
  destruct (listed_documents_are_logged Try.healthy "a@x.com" Try.three
              eq_refl eq_refl) as (_ & Hlen & Hwhere).
  split; [exact Hlen | exact Hwhere].
Defined.

Lemma listed_events_follow_the_collection_at_shadowed :
  store_fault Try.healthy CollectionGet Try.shadowed = None
  /\ result (run Try.healthy get_api_events Try.shadowed) =
     Responded
       {| status := 200;
          json :=
            VObj {[ "success" := VBool true;
                    "events" :=
                      VArr [ VObj {[ "id" := VStr "mine"; "title" := VStr "Talk" ]};
                             VObj {[ "id" := VStr "e2"; "title" := VStr "Walk" ]} ] ]} |}
  /\ exists listed : list Value,
       result (run Try.healthy get_api_events Try.shadowed) =
         Responded
           {| status := 200;
              json := VObj {[ "success" := VBool true; "events" := VArr listed ]} |}
       /\ length listed = length Try.shadowed.
Proof.
  do 2 (split; [reflexivity |]).
  destruct (listed_events_follow_the_collection Try.healthy Try.shadowed eq_refl)
    as (listed & Hres & Hlen & _).
  exists listed. auto.
Defined.

Lemma send_email_reads_two_properties_at_listed :
  "colour" <> "email"
  /\ "colour" <> "message"
  /\ post_send_email Try.nts Try.dom0
       (VObj {[ "colour" := VStr "red";
                "email" := VStr "kche0224@student.monash.edu";
                "message" := VStr "hello" ]}) =
     post_send_email Try.nts Try.dom0 Try.listed.
Proof.
  assert ("colour" <> "email") as Hemail by discriminate.
  assert ("colour" <> "message") as Hmessage by discriminate.
  do 2 (split; [assumption |]).
  exact (send_email_reads_two_properties Try.nts Try.dom0
           {[ "email" := VStr "kche0224@student.monash.edu"; "message" := VStr "hello" ]}
           "colour" (VStr "red") Hemail Hmessage).
Defined.


